(** * Reconciliation core of the AWS cluster-api provider

    A shallow embedding of
    - the MachineSet reconciler ([package machineset]),
    - the guest-cluster scope ([pkg/cloud/scope/guestcluster.go]),
    - the provider-configuration codec contract,
    together with the properties the design document states about them.

    Go values are modelled as follows: a pointer or a map that may be [nil]
    is an [option]; [int64]/[int32] are [Z]; a Go [map[string]string] is a
    [gmap string string]; a call that may panic returns an [outcome]; a
    function with several results returns a tuple. *)

From Stdlib Require Import ZArith NArith Ascii String List Strings.Byte.
From stdpp Require Import base option gmap strings list.
From stdpp Require Import pretty.

#[local] Set Warnings "-register-all".
#[local] Open Scope string_scope.
#[local] Open Scope list_scope.
#[local] Open Scope Z_scope.

(** ** Go runtime: results of calls that may panic *)

Inductive outcome (A : Type) : Type :=
  | Ret (a : A)
  | Panic (msg : string).
Arguments Ret {A} a.
Arguments Panic {A} msg.

(** ** [strconv.FormatInt] in base 10 *)

Module strconv.

Definition digit (d : Z) : ascii := ascii_of_nat (48 + Z.to_nat d).

(** The loop of [formatBits] for base 10: digits are produced from the
    least significant one and written in front of what is already there.
    A [uint64] has at most 20 decimal digits. *)
Fixpoint formatBits (fuel : nat) (u : Z) (acc : string) : string :=
  match fuel with
  | O => acc
  | S fuel' =>
      let acc' := String (digit (u mod 10)) acc in
      if u / 10 =? 0 then acc' else formatBits fuel' (u / 10) acc'
  end.

Definition FormatInt (i : Z) : string :=
  if i <? 0 then String "-" (formatBits 20 (- i) "")
  else formatBits 20 i "".

End strconv.

(** ** Errors

    Go [error] values.  [StatusError] is an API-server status error with its
    reason; [ErrorString] is what [errors.New] and [fmt.Errorf] build. *)

Inductive StatusReason := StatusReasonNotFound | StatusReasonConflict | StatusReasonUnknown.

Inductive error :=
  | StatusError (reason : StatusReason) (msg : string)
  | ErrorString (msg : string).

Definition Error (e : error) : string :=
  match e with
  | StatusError _ msg => msg
  | ErrorString msg => msg
  end.

Module apierrors.
Definition IsNotFound (e : error) : bool :=
  match e with
  | StatusError StatusReasonNotFound _ => true
  | _ => false
  end.
Definition IsConflict (e : error) : bool :=
  match e with
  | StatusError StatusReasonConflict _ => true
  | _ => false
  end.
End apierrors.

Module fmt.
(** [fmt.Errorf(prefix + "%v", err)] *)
Definition Errorf (prefix : string) (err : error) : error :=
  ErrorString (prefix +:+ Error err).
End fmt.

(** ** Calls to collaborators

    A function that talks to its collaborators runs in a state made of the
    external store [W] and the list of calls made so far (of type [C]); it
    returns a result or panics. *)

Record State (W C : Type) := mkState {
  store : W;
  calls : list C;
}.
Arguments mkState {W C} _ _.
Arguments store {W C} _.
Arguments calls {W C} _.

Definition M (W C A : Type) : Type := State W C -> outcome A * State W C.

Definition ret {W C A} (a : A) : M W C A := fun s => (Ret a, s).

Definition bind {W C A B} (m : M W C A) (k : A -> M W C B) : M W C B :=
  fun s =>
    match m s with
    | (Ret a, s') => k a s'
    | (Panic msg, s') => (Panic msg, s')
    end.

Definition lift {W C A} (o : outcome A) : M W C A := fun s => (o, s).

Definition record {W C} (c : C) : M W C unit :=
  fun s => (Ret tt, {| store := store s; calls := calls s ++ [c] |}).

Notation "'let*' x ':=' m 'in' k" := (bind m (fun x => k))
  (at level 10, x binder, k at level 200).

(** ** Provider configuration ([package awsproviderconfig]) *)

Module providerconfigv1.

Record Filter := mkFilter {
  filter_Name : string;
  filter_Values : list string;
}.

Record AWSResourceReference := mkAWSResourceReference {
  Filters : list Filter;
}.

Record LocalObjectReference := mkLocalObjectReference {
  lor_Name : string;
}.

Record Placement := mkPlacement {
  Region : string;
  AvailabilityZone : string;
}.

Record TagSpecification := mkTagSpecification {
  tag_Name : string;
  tag_Value : string;
}.

Record AWSMachineProviderConfig := mkAWSMachineProviderConfig {
  AMI : AWSResourceReference;
  CredentialsSecret : option LocalObjectReference;
  InstanceType : string;
  pc_Placement : Placement;
  Subnet : AWSResourceReference;
  Tags : list TagSpecification;
  SecurityGroups : list AWSResourceReference;
  PublicIP : option bool;
  UserDataSecret : option LocalObjectReference;
}.

End providerconfigv1.

(** ** The MachineSet reconciler ([package machineset]) *)

Module machineset.

Import providerconfigv1.


(** [metav1.Time]: an instant, counted from the zero instant. *)
Definition Time := Z.

(** [IsZero] on a pointer to a [metav1.Time]: a nil pointer is zero. *)
Definition Time_IsZero (t : option Time) : bool :=
  match t with
  | None => true
  | Some t => t =? 0
  end.

Record NamespacedName := mkNamespacedName {
  Namespace : string;
  Name : string;
}.

Record Request := mkRequest { req_NamespacedName : NamespacedName }.

(** [ctrl.Result] *)
Record Result := mkResult {
  Requeue : bool;
  RequeueAfter : Z;
}.

Definition Result_zero : Result := {| Requeue := false; RequeueAfter := 0 |}.

(** [machinev1.ProviderSpec]: the raw, encoded provider configuration. *)
Record ProviderSpec := mkProviderSpec {
  Value : option (list byte);
}.

(** [machinev1.MachineSet], with the fields the reconciler reads or writes.
    [Annotations] is a Go map and may be nil. *)
Record MachineSet := mkMachineSet {
  ms_Name : string;
  ms_Namespace : string;
  DeletionTimestamp : option Time;
  Annotations : option (gmap string string);
  ms_ProviderSpec : ProviderSpec;   (* Spec.Template.Spec.ProviderSpec *)
}.

Definition MachineSet_zero : MachineSet :=
  {| ms_Name := ""; ms_Namespace := ""; DeletionTimestamp := None;
     Annotations := None; ms_ProviderSpec := {| Value := None |} |}.

Definition set_Annotations (ms : MachineSet) (a : option (gmap string string)) : MachineSet :=
  {| ms_Name := ms_Name ms; ms_Namespace := ms_Namespace ms;
     DeletionTimestamp := DeletionTimestamp ms;
     Annotations := a;
     ms_ProviderSpec := ms_ProviderSpec ms |}.

(** [machineSet.DeepCopy()]: the copy shares nothing with the object, so
    later writes to the object leave it as it is. *)
Definition DeepCopy (ms : MachineSet) : MachineSet := ms.

(** [m[k] = v] on a Go map: panics on a nil map. *)
Definition mapassign (m : option (gmap string string)) (k v : string)
  : outcome (option (gmap string string)) :=
  match m with
  | None => Panic "assignment to entry in nil map"
  | Some g => Ret (Some (<[k := v]> g))
  end.

(** ** Instance capability table *)

(** Modelled from the spec: the capability descriptor (vCPU count, memory
    size, GPU count) an instance type is mapped to by [InstanceTypes]; the
    declaration of the table and of its entries is not among the sources.
    The reconciler reads [VCPU]. *)
Record InstanceTypeInfo := mkInstanceTypeInfo {
  VCPU : Z;
  MemoryMb : Z;
  GPU : Z;
}.

Definition InstanceTypeInfo_zero : InstanceTypeInfo :=
  {| VCPU := 0; MemoryMb := 0; GPU := 0 |}.

(** [table[key]] on a Go map: the zero value when the key is absent. *)
Definition mapaccess (table : gmap string InstanceTypeInfo) (key : string) : InstanceTypeInfo :=
  default InstanceTypeInfo_zero (table !! key).

(** ** The client interface and the calls made through it *)

(** [client.MergeFrom(obj)]: a merge patch computed against [obj]. *)
Inductive Patch := MergeFrom (from : MachineSet).

(** [client.Client], over a store of type [W].  [Get] reads the store;
    [Patch] may change it. *)
Record Client (W : Type) := mkClient {
  Get : NamespacedName -> W -> error + MachineSet;
  DoPatch : MachineSet -> Patch -> W -> option error * W;
}.
Arguments Get {W} _ _ _.
Arguments DoPatch {W} _ _ _ _.

(** What a reconcile did to its collaborators, in order. *)
Inductive Call :=
  | CallGet (key : NamespacedName)
  | CallDecode (spec : ProviderSpec)
  | CallPatch (obj : MachineSet) (patch : Patch).

Definition callGet {W} (c : Client W) (key : NamespacedName) : M W Call (error + MachineSet) :=
  let* _ := record (CallGet key) in
  fun s => (Ret (Get c key (store s)), s).

Definition callPatch {W} (c : Client W) (obj : MachineSet) (p : Patch) : M W Call (option error) :=
  let* _ := record (CallPatch obj p) in
  fun s =>
    let '(err, w) := DoPatch c obj p (store s) in
    (Ret err, {| store := w; calls := calls s |}).

(** ** The MachineSet reconciler *)

Record MachineSetReconciler (W : Type) := mkMachineSetReconciler {
  r_Client : Client W;
}.
Arguments r_Client {W} _.

Section Reconciler.

Context {W : Type}.

(** The package's capability table [InstanceTypes]. *)
Variable InstanceTypes : gmap string InstanceTypeInfo.

(** The provider-configuration codec of [providerconfigv1]: [NewCodec] and
    the codec's [DecodeProviderSpec]. *)
Variable Codec : Type.
Variable NewCodec : error + Codec.
Variable DecodeProviderSpec : Codec -> ProviderSpec -> error + AWSMachineProviderConfig.

Definition getproviderConfig (machineSet : MachineSet)
  : M W Call (error + AWSMachineProviderConfig) :=
  match NewCodec with
  | inl err => ret (inl (fmt.Errorf "failed to create codec: " err))
  | inr codec =>
      let* _ := record (CallDecode (ms_ProviderSpec machineSet)) in
      match DecodeProviderSpec codec (ms_ProviderSpec machineSet) with
      | inl err =>
          ret (inl (fmt.Errorf "failed to decode machineSet provider config: " err))
      | inr providerConfig => ret (inr providerConfig)
      end
  end.

Definition Reconcile (r : MachineSetReconciler W) (req : Request)
  : M W Call (Result * option error) :=
  let* got := callGet (r_Client r) (req_NamespacedName req) in
  match got with
  | inl err =>
      if apierrors.IsNotFound err then
        (* Object not found, return. *)
        ret (Result_zero, None)
      else
        (* Error reading the object - requeue the request. *)
        ret (Result_zero, Some err)
  | inr machineSet =>
      (* Ignore deleted MachineSets *)
      if negb (Time_IsZero (DeletionTimestamp machineSet)) then
        ret (Result_zero, None)
      else
        let originalMachineSetToPatch := MergeFrom (DeepCopy machineSet) in
        let* pc := getproviderConfig machineSet in
        match pc with
        | inl err =>
            ret (Result_zero, Some (fmt.Errorf "failed to get providerConfig: " err))
        | inr providerConfig =>
            let instanceType := mapaccess InstanceTypes (InstanceType providerConfig) in
            let machineSet :=
              match Annotations machineSet with
              | None => set_Annotations machineSet (Some ∅)
              | Some _ => machineSet
              end in
            let* a := lift (mapassign (Annotations machineSet) "machine.openshift.io/vCPU"
                         (strconv.FormatInt (VCPU instanceType))) in
            let machineSet := set_Annotations machineSet a in
            let* a := lift (mapassign (Annotations machineSet) "machine.openshift.io/memoryMb"
                         (strconv.FormatInt (VCPU instanceType))) in
            let machineSet := set_Annotations machineSet a in
            let* a := lift (mapassign (Annotations machineSet) "machine.openshift.io/GPU"
                         (strconv.FormatInt (VCPU instanceType))) in
            let machineSet := set_Annotations machineSet a in
            let* perr := callPatch (r_Client r) machineSet originalMachineSetToPatch in
            match perr with
            | Some err =>
                ret (Result_zero, Some (fmt.Errorf "failed to patch machineSet: " err))
            | None => ret (Result_zero, None)
            end
        end
  end.

End Reconciler.

End machineset.

(** ** Unstructured objects ([package unstructured]) *)

Module unstructured.

(** A Go [interface{}] holding decoded JSON. *)
Inductive JSONValue :=
  | JNull
  | JBool (b : bool)
  | JNumber (z : Z)
  | JString (s : string)
  | JArray (l : list JSONValue)
  | JObject (m : gmap string JSONValue).

Record Unstructured := mkUnstructured {
  Object : gmap string JSONValue;
}.

(** [NestedFieldNoCopy]: walk [fields] down from [val]; results are
    (value, found, error). *)
Fixpoint NestedFieldNoCopy (val : JSONValue) (fields : list string)
  : option JSONValue * bool * option error :=
  match fields with
  | [] => (Some val, true, None)
  | field :: rest =>
      match val with
      | JNull => (None, false, None)
      | JObject m =>
          match m !! field with
          | None => (None, false, None)
          | Some v => NestedFieldNoCopy v rest
          end
      | _ =>
          (None, false,
           Some (ErrorString ("." +:+ field +:+ " accessor error: expected map[string]interface{}")))
      end
  end.

(** [NestedString]: results are (string, found, error). *)
Definition NestedString (obj : gmap string JSONValue) (fields : list string)
  : string * bool * option error :=
  match NestedFieldNoCopy (JObject obj) fields with
  | (Some (JString s), true, None) => (s, true, None)
  | (Some _, true, None) =>
      ("", false, Some (ErrorString "accessor error: expected string"))
  | (_, found, err) => ("", found, err)
  end.

End unstructured.

(** ** The guest-cluster scope ([package scope]) *)

Module scope.

Import unstructured.

(** [clusterv1.ClusterNetwork]; [APIServerPort] is a pointer to an [int32]. *)
Record ClusterNetwork := mkClusterNetwork {
  cn_APIServerPort : option Z;
}.

(** [clusterv1.Cluster], with the fields the scope reads. *)
Record Cluster := mkCluster {
  cl_Name : string;
  cl_Namespace : string;
  cl_UID : string;
  cl_ClusterNetwork : option ClusterNetwork;   (* Spec.ClusterNetwork *)
}.

(** The calls a scope makes to its collaborators. *)
Inductive Call (ServiceEndpoint : Type) :=
  | CallSessionForRegion (region : string) (endpoints : list ServiceEndpoint)
  | CallNewHelper (obj : Unstructured)
  | CallHelperPatch (obj : Unstructured).
Arguments CallSessionForRegion {ServiceEndpoint} _ _.
Arguments CallNewHelper {ServiceEndpoint} _.
Arguments CallHelperPatch {ServiceEndpoint} _.

Section Scope.

(** The external types the scope holds: the store behind the client, the
    client, the logger, the service endpoints, the SDK session and the patch
    helper. *)
Context {W ClientT Logger ServiceEndpoint Session Helper : Type}.

(** [klogr.New]. *)
Variable klogr_New : Logger.

(** The session factory of this package. *)
Variable sessionForRegion : string -> list ServiceEndpoint -> error + Session.

(** [patch.NewHelper]: takes the snapshot of the object a later patch is
    computed against. *)
Variable patch_NewHelper : Unstructured -> option ClientT -> error + Helper.

Abbreviation ScopeM := (M W (Call ServiceEndpoint)).

Record GuestClusterScopeParams := mkGuestClusterScopeParams {
  p_Client : option ClientT;
  p_Logger : option Logger;
  p_Cluster : option Cluster;
  p_GuestCluster : option Unstructured;
  p_ControllerName : string;
  p_Endpoints : list ServiceEndpoint;
  p_Session : option Session;
}.

Record GuestClusterObject := mkGuestClusterObject {
  Unstructured_of : option Unstructured;
}.

Record GuestClusterScope := mkGuestClusterScope {
  s_Logger : option Logger;
  s_client : option ClientT;
  s_patchHelper : option Helper;
  s_Cluster : option Cluster;
  s_GuestCluster : option GuestClusterObject;
  s_session : option Session;
  s_controllerName : string;
}.

(** [fmt.Errorf(prefix + "%w", err)], where [err] may be nil. *)
Definition Errorf_w (prefix : string) (err : option error) : error :=
  ErrorString (prefix +:+ match err with
                          | Some e => Error e
                          | None => "%!w(<nil>)"
                          end).

Definition callSessionForRegion (region : string) (endpoints : list ServiceEndpoint)
  : ScopeM (error + Session) :=
  let* _ := record (CallSessionForRegion region endpoints) in
  ret (sessionForRegion region endpoints).

Definition callNewHelper (obj : Unstructured) (c : option ClientT)
  : ScopeM (error + Helper) :=
  let* _ := record (CallNewHelper obj) in
  ret (patch_NewHelper obj c).

(** [NewGuestClusterScope]; the results are (scope pointer, error). *)
Definition NewGuestClusterScope (params : GuestClusterScopeParams)
  : ScopeM (option GuestClusterScope * option error) :=
  match p_Cluster params with
  | None => ret (None, Some (ErrorString "failed to generate new scope from nil Cluster"))
  | Some cluster =>
      match p_GuestCluster params with
      | None =>
          ret (None, Some (ErrorString "failed to generate new scope from nil GuestCluster"))
      | Some guestCluster =>
          let logger :=
            match p_Logger params with
            | None => Some klogr_New
            | Some l => Some l
            end in
          let '(region, found, err) :=
            NestedString (Object guestCluster) ["spec"; "region"] in
          if bool_decide (err <> None) || negb found then
            ret (None, Some (Errorf_w "error getting region: " err))
          else
            let* sess := callSessionForRegion region (p_Endpoints params) in
            match sess with
            | inl err =>
                ret (None, Some (fmt.Errorf "failed to create aws session: " err))
            | inr session =>
                let* h := callNewHelper guestCluster (p_Client params) in
                match h with
                | inl err =>
                    ret (None, Some (ErrorString ("failed to init patch helper: " +:+ Error err)))
                | inr helper =>
                    ret (Some {| s_Logger := logger;
                                 s_client := p_Client params;
                                 s_Cluster := Some cluster;
                                 s_GuestCluster :=
                                   Some {| Unstructured_of := Some guestCluster |};
                                 s_patchHelper := Some helper;
                                 s_session := Some session;
                                 s_controllerName := p_ControllerName params |},
                         None)
                end
            end
      end
  end.

(** [s.Cluster.Name]: a nil [Cluster] pointer is dereferenced. *)
Definition Name (s : GuestClusterScope) : outcome string :=
  match s_Cluster s with
  | None => Panic "invalid memory address or nil pointer dereference"
  | Some c => Ret (cl_Name c)
  end.

Definition Namespace (s : GuestClusterScope) : outcome string :=
  match s_Cluster s with
  | None => Panic "invalid memory address or nil pointer dereference"
  | Some c => Ret (cl_Namespace c)
  end.

(** [PatchObject]: returns nil at once; the statements after the [return]
    are commented out in the source. *)
Definition PatchObject (s : GuestClusterScope) : ScopeM (option error) :=
  ret None.

(** [Close] closes the current scope. *)
Definition Close (s : GuestClusterScope) : ScopeM (option error) :=
  PatchObject s.

(** [APIServerPort]: the port to use when creating the load balancer. *)
Definition APIServerPort (s : GuestClusterScope) : outcome Z :=
  match s_Cluster s with
  | None => Panic "invalid memory address or nil pointer dereference"
  | Some cluster =>
      match cl_ClusterNetwork cluster with
      | Some network =>
          match cn_APIServerPort network with
          | Some port => Ret port
          | None => Ret 6443
          end
      | None => Ret 6443
      end
  end.

Definition Session_of (s : GuestClusterScope) : option Session := s_session s.

Definition ControllerName (s : GuestClusterScope) : string := s_controllerName s.

End Scope.

End scope.

(** ** The provider-configuration codec *)

Module codec.

Import providerconfigv1.

(** Modelled from the spec: the serialized structure that follows the
    marker.  The encoder and decoder of [package awsproviderconfig] are not
    part of the sources at hand, and the design leaves the wire format to the
    provider; this model writes every field in declaration order, a string as
    its length followed by its bytes, a list as its length followed by its
    elements, an optional field as a presence byte followed by the value. *)
Class Wire (A : Type) := mkWire {
  put : A -> list byte;
  get : list byte -> option (A * list byte);
}.

(** A wire format is sound when reading back what was written gives the
    value and leaves the bytes that follow untouched. *)
Class WireOk (A : Type) `{Wire A} : Prop :=
  get_put : forall (a : A) (rest : list byte), get (put a ++ rest) = Some (a, rest).

Definition byte_of_N (n : N) : byte := default Byte.x00 (Byte.of_N n).

(** Modelled from the spec: lengths are written seven bits at a time, low
    bits first, the high bit of a byte telling that more follow. *)
Fixpoint put_uvarint_fuel (fuel : nat) (n : N) : list byte :=
  if (n <? 128)%N then [byte_of_N n]
  else match fuel with
       | O => []
       | S fuel' => byte_of_N (128 + n mod 128) :: put_uvarint_fuel fuel' (n / 128)
       end.

Definition put_uvarint (n : N) : list byte :=
  put_uvarint_fuel (N.to_nat (N.log2 n)) n.

Fixpoint get_uvarint (bs : list byte) : option (N * list byte) :=
  match bs with
  | [] => None
  | b :: rest =>
      let x := Byte.to_N b in
      if (x <? 128)%N then Some (x, rest)
      else match get_uvarint rest with
           | Some (y, rest') => Some ((x - 128 + 128 * y)%N, rest')
           | None => None
           end
  end.

Definition put_string (s : string) : list byte :=
  let bs := list_byte_of_string s in
  put_uvarint (N.of_nat (length bs)) ++ bs.

Definition get_string (bs : list byte) : option (string * list byte) :=
  match get_uvarint bs with
  | Some (n, rest) =>
      let k := N.to_nat n in
      if (k <=? length rest)%nat
      then Some (string_of_list_byte (take k rest), drop k rest)
      else None
  | None => None
  end.

#[export] Instance Wire_string : Wire string :=
  {| put := put_string; get := get_string |}.

#[export] Instance Wire_bool : Wire bool :=
  {| put := fun (b : bool) => [if b then Byte.x01 else Byte.x00];
     get := fun (bs : list byte) =>
       match bs with
       | b :: rest =>
           if (Byte.to_N b =? 0)%N then Some (false, rest)
           else if (Byte.to_N b =? 1)%N then Some (true, rest)
           else None
       | [] => None
       end |}.

#[export] Instance Wire_option {A} `{Wire A} : Wire (option A) :=
  {| put := fun (o : (option A)) =>
       match o with
       | None => [Byte.x00]
       | Some a => Byte.x01 :: put a
       end;
     get := fun (bs : list byte) =>
       match bs with
       | b :: rest =>
           if (Byte.to_N b =? 0)%N then Some (None, rest)
           else if (Byte.to_N b =? 1)%N then
             match get rest with
             | Some (a, rest') => Some (Some a, rest')
             | None => None
             end
           else None
       | [] => None
       end |}.

Fixpoint put_elems {A} `{Wire A} (l : list A) : list byte :=
  match l with
  | [] => []
  | a :: l' => put a ++ put_elems l'
  end.

Fixpoint get_elems {A} `{Wire A} (n : nat) (bs : list byte) : option (list A * list byte) :=
  match n with
  | O => Some ([], bs)
  | S n' =>
      match get bs with
      | Some (a, rest) =>
          match get_elems n' rest with
          | Some (l, rest') => Some (a :: l, rest')
          | None => None
          end
      | None => None
      end
  end.

#[export] Instance Wire_list {A} `{Wire A} : Wire (list A) :=
  {| put := fun (l : (list A)) => put_uvarint (N.of_nat (length l)) ++ put_elems l;
     get := fun (bs : list byte) =>
       match get_uvarint bs with
       | Some (n, rest) => get_elems (N.to_nat n) rest
       | None => None
       end |}.

#[export] Instance Wire_Filter : Wire Filter :=
  {| put := fun (f : Filter) => put (filter_Name f) ++ put (filter_Values f);
     get := fun (bs : list byte) =>
       '(name, bs) ← get bs;
       '(values, bs) ← get bs;
       Some (mkFilter name values, bs) |}.

#[export] Instance Wire_AWSResourceReference : Wire AWSResourceReference :=
  {| put := fun (r : AWSResourceReference) => put (Filters r);
     get := fun (bs : list byte) => '(filters, bs) ← get bs; Some (mkAWSResourceReference filters, bs) |}.

#[export] Instance Wire_LocalObjectReference : Wire LocalObjectReference :=
  {| put := fun (r : LocalObjectReference) => put (lor_Name r);
     get := fun (bs : list byte) => '(name, bs) ← get bs; Some (mkLocalObjectReference name, bs) |}.

#[export] Instance Wire_Placement : Wire Placement :=
  {| put := fun (p : Placement) => put (Region p) ++ put (AvailabilityZone p);
     get := fun (bs : list byte) =>
       '(region, bs) ← get bs;
       '(zone, bs) ← get bs;
       Some (mkPlacement region zone, bs) |}.

#[export] Instance Wire_TagSpecification : Wire TagSpecification :=
  {| put := fun (t : TagSpecification) => put (tag_Name t) ++ put (tag_Value t);
     get := fun (bs : list byte) =>
       '(name, bs) ← get bs;
       '(value, bs) ← get bs;
       Some (mkTagSpecification name value, bs) |}.

#[export] Instance Wire_AWSMachineProviderConfig : Wire AWSMachineProviderConfig :=
  {| put := fun (c : AWSMachineProviderConfig) =>
       put (AMI c) ++ put (CredentialsSecret c) ++ put (InstanceType c)
       ++ put (pc_Placement c) ++ put (Subnet c) ++ put (Tags c)
       ++ put (SecurityGroups c) ++ put (PublicIP c) ++ put (UserDataSecret c);
     get := fun (bs : list byte) =>
       '(ami, bs) ← get bs;
       '(creds, bs) ← get bs;
       '(instanceType, bs) ← get bs;
       '(placement, bs) ← get bs;
       '(subnet, bs) ← get bs;
       '(tags, bs) ← get bs;
       '(groups, bs) ← get bs;
       '(publicIP, bs) ← get bs;
       '(userData, bs) ← get bs;
       Some (mkAWSMachineProviderConfig ami creds instanceType placement subnet
               tags groups publicIP userData, bs) |}.

(** Modelled from the spec: the [{apiVersion, kind}] marker a payload
    begins with. *)
Record TypeMeta := mkTypeMeta {
  APIVersion : string;
  Kind : string;
}.

#[export] Instance Wire_TypeMeta : Wire TypeMeta :=
  {| put := fun (m : TypeMeta) => put (APIVersion m) ++ put (Kind m);
     get := fun (bs : list byte) =>
       '(apiVersion, bs) ← get bs;
       '(kind, bs) ← get bs;
       Some (mkTypeMeta apiVersion kind, bs) |}.

(** Modelled from the spec: the schema versions the codec supports at the
    same time.  The sources import [awsproviderconfig/v1alpha1] and
    [awsproviderconfig/v1beta1]. *)
Inductive SchemaVersion := V1alpha1 | V1beta1.

Definition marker (ver : SchemaVersion) : TypeMeta :=
  match ver with
  | V1alpha1 =>
      {| APIVersion := "awsproviderconfig.k8s.io/v1alpha1";
         Kind := "AWSMachineProviderConfig" |}
  | V1beta1 =>
      {| APIVersion := "awsproviderconfig.openshift.io/v1beta1";
         Kind := "AWSMachineProviderConfig" |}
  end.

(** Modelled from the spec: the schema is selected from the embedded marker
    alone. *)
Definition recognise (m : TypeMeta) : option SchemaVersion :=
  if String.eqb (Kind m) "AWSMachineProviderConfig" then
    if String.eqb (APIVersion m) "awsproviderconfig.k8s.io/v1alpha1" then Some V1alpha1
    else if String.eqb (APIVersion m) "awsproviderconfig.openshift.io/v1beta1" then Some V1beta1
    else None
  else None.

(** Modelled from the spec: one encode and one decode implementation is
    registered per supported version. *)
Definition schema_put (ver : SchemaVersion) : AWSMachineProviderConfig -> list byte :=
  match ver with
  | V1alpha1 => put
  | V1beta1 => put
  end.

Definition schema_get (ver : SchemaVersion)
  : list byte -> option (AWSMachineProviderConfig * list byte) :=
  match ver with
  | V1alpha1 => get
  | V1beta1 => get
  end.

(** Modelled from the spec: the errors of the codec. *)
Inductive CodecError :=
  | SchemaError (m : TypeMeta)
  | MalformedPayloadError
  | EncodeError.

(** Modelled from the spec: a codec; [current] is the schema version its
    encoder tags the output with. *)
Record Codec := mkCodec {
  current : SchemaVersion;
}.

(** Modelled from the spec: [Encode(ProviderConfig) -> (bytes, error)];
    the output is tagged with the current schema version. *)
Definition Encode (c : Codec) (v : AWSMachineProviderConfig) : CodecError + list byte :=
  inr (put (marker (current c)) ++ schema_put (current c) v).

(** Modelled from the spec: [Decode(raw bytes, targetVersion) ->
    (ProviderConfig, error)].  The schema is selected from the marker, never
    from [targetVersion]; an unrecognized marker is a [SchemaError], bytes
    that cannot be parsed under the matched schema are a
    [MalformedPayloadError]. *)
Definition Decode (c : Codec) (raw : list byte) (targetVersion : SchemaVersion)
  : CodecError + AWSMachineProviderConfig :=
  match get raw with
  | None => inl MalformedPayloadError
  | Some (m, body) =>
      match recognise m with
      | None => inl (SchemaError m)
      | Some ver =>
          match schema_get ver body with
          | Some (v, []) => inr v
          | _ => inl MalformedPayloadError
          end
      end
  end.

Definition CodecError_error (e : CodecError) : error :=
  match e with
  | SchemaError m =>
      ErrorString ("no kind " +:+ Kind m +:+ " is registered for version " +:+ APIVersion m)
  | MalformedPayloadError => ErrorString "malformed payload"
  | EncodeError => ErrorString "encoding failed"
  end.

(** [NewCodec] and [DecodeProviderSpec], as the reconciler calls them. *)
Definition NewCodec (ver : SchemaVersion) : error + Codec :=
  inr {| current := ver |}.

Definition DecodeProviderSpec (c : Codec) (spec : machineset.ProviderSpec)
  : error + AWSMachineProviderConfig :=
  match machineset.Value spec with
  | None => inl (ErrorString "provider spec has no value")
  | Some raw =>
      match Decode c raw (current c) with
      | inl e => inl (CodecError_error e)
      | inr v => inr v
      end
  end.

(** The configuration literal of [TestingMachineProviderConfig]. *)
Definition TestingMachinePc (awsCredentialsSecretName clusterID : string)
  : AWSMachineProviderConfig :=
  {| AMI := {| Filters :=
        [ {| filter_Name := "tag:image_stage"; filter_Values := ["base"] |};
          {| filter_Name := "tag:operating_system"; filter_Values := ["rhel"] |};
          {| filter_Name := "tag:ready"; filter_Values := ["yes"] |} ] |};
     CredentialsSecret := Some {| lor_Name := awsCredentialsSecretName |};
     InstanceType := "m4.xlarge";
     pc_Placement := {| Region := "us-east-1"; AvailabilityZone := "us-east-1a" |};
     Subnet := {| Filters :=
        [ {| filter_Name := "tag:Name";
             filter_Values := [clusterID +:+ "-worker-*"] |} ] |};
     Tags :=
        [ {| tag_Name := "openshift-node-group-config"; tag_Value := "node-config-master" |};
          {| tag_Name := "host-type"; tag_Value := "master" |};
          {| tag_Name := "sub-host-type"; tag_Value := "default" |} ];
     SecurityGroups :=
        [ {| Filters :=
            [ {| filter_Name := "tag:Name";
                 filter_Values := [clusterID +:+ "-*"] |} ] |} ];
     PublicIP := Some true;
     UserDataSecret := None |}.

(** [TestingMachineProviderConfig]: encode the literal and wrap the bytes. *)
Definition TestingMachineProviderConfig (c : Codec) (awsCredentialsSecretName clusterID : string)
  : machineset.ProviderSpec * option error :=
  match Encode c (TestingMachinePc awsCredentialsSecretName clusterID) with
  | inl e =>
      ({| machineset.Value := None |},
       Some (fmt.Errorf "AWSMachineProviderConfig encoding failed: " (CodecError_error e)))
  | inr buf => ({| machineset.Value := Some buf |}, None)
  end.

End codec.

(** ** Merge patches on annotation maps *)

Module mergepatch.

(** Modelled from the spec: the merge patch of [client.MergeFrom] for the
    annotation map, a partial update describing only the changed keys.
    [Some v] sets a key, [None] (JSON null) removes it; a key that is the
    same on both sides is left out. *)
Definition annotationsDelta (from obj : option (gmap string string))
  : gmap string (option string) :=
  merge (fun o n =>
           match o, n with
           | _, Some v => if decide (o = Some v) then None else Some (Some v)
           | Some _, None => Some None
           | None, None => None
           end)
        (default ∅ from) (default ∅ obj).

(** Applying a delta to a stored annotation map. *)
Definition applyDelta (delta : gmap string (option string)) (cur : gmap string string)
  : gmap string string :=
  merge (fun c d =>
           match d with
           | Some (Some v) => Some v
           | Some None => None
           | None => c
           end)
        cur delta.

End mergepatch.

(** ** An in-memory client

    A client over a finite map from (namespace, name) to objects, in the
    manner of controller-runtime's fake client.  It is used to run the
    reconciler on concrete stores. *)

Module fake.

Import machineset.

Definition Store := gmap (string * string) MachineSet.

Definition key_of (key : NamespacedName) : string * string :=
  (Namespace key, Name key).

Definition notFound : error := StatusError StatusReasonNotFound "not found".

Definition Get (key : NamespacedName) (w : Store) : error + MachineSet :=
  match w !! key_of key with
  | Some ms => inr ms
  | None => inl notFound
  end.

Definition DoPatch (obj : MachineSet) (p : Patch) (w : Store) : option error * Store :=
  let '(MergeFrom from) := p in
  let k := (ms_Namespace obj, ms_Name obj) in
  match w !! k with
  | None => (Some notFound, w)
  | Some cur =>
      let delta := mergepatch.annotationsDelta (Annotations from) (Annotations obj) in
      (None,
       <[k := set_Annotations cur
                (Some (mergepatch.applyDelta delta (default ∅ (Annotations cur))))]> w)
  end.

Definition client : Client Store := {| machineset.Get := Get; machineset.DoPatch := DoPatch |}.

Definition reconciler : MachineSetReconciler Store := {| r_Client := client |}.

(** A client whose reads fail with a given error. *)
Definition failing (e : error) : Client Store :=
  {| machineset.Get := fun _ _ => inl e; machineset.DoPatch := DoPatch |}.

End fake.

(** ** Specification-side definitions *)

Module spec.

Import machineset.

Definition vCPUKey : string := "machine.openshift.io/vCPU".
Definition memoryMbKey : string := "machine.openshift.io/memoryMb".
Definition GPUKey : string := "machine.openshift.io/GPU".

(** The object [Reconcile] hands to [Patch] when it fetched [ms] and looked
    up [it]: the three writes of the source, on the allocated map. *)
Definition annotated (it : InstanceTypeInfo) (ms : MachineSet) : MachineSet :=
  set_Annotations ms
    (Some (<[GPUKey := strconv.FormatInt (VCPU it)]>
             (<[memoryMbKey := strconv.FormatInt (VCPU it)]>
                (<[vCPUKey := strconv.FormatInt (VCPU it)]>
                   (default ∅ (Annotations ms)))))).

(** The result [Reconcile] builds from the result of [Patch]. *)
Definition patchResult (perr : option error) : Result * option error :=
  match perr with
  | Some err => (Result_zero, Some (fmt.Errorf "failed to patch machineSet: " err))
  | None => (Result_zero, None)
  end.

(** The [Patch] calls among a list of calls. *)
Definition patchCalls (cs : list Call) : list (MachineSet * Patch) :=
  omap (fun c => match c with CallPatch obj p => Some (obj, p) | _ => None end) cs.

(** The [Decode] calls among a list of calls. *)
Definition decodeCalls (cs : list Call) : list ProviderSpec :=
  omap (fun c => match c with CallDecode s => Some s | _ => None end) cs.

(** The session-factory calls among the calls of a scope. *)
Definition sessionCalls {E} (cs : list (scope.Call E)) : list (string * list E) :=
  omap (fun c => match c with scope.CallSessionForRegion r e => Some (r, e) | _ => None end) cs.

(** The calls to the patch helper among the calls of a scope. *)
Definition helperPatchCalls {E} (cs : list (scope.Call E)) : list unstructured.Unstructured :=
  omap (fun c => match c with scope.CallHelperPatch o => Some o | _ => None end) cs.

End spec.

(** ** Concrete inputs *)

Module examples.

Import machineset codec.

(** A capability table with the entry of the design document. *)
Definition table : gmap string InstanceTypeInfo :=
  {[ "m4.xlarge" := {| VCPU := 4; MemoryMb := 16384; GPU := 0 |} ]}.

Definition workersKey : NamespacedName :=
  {| Namespace := "default"; Name := "workers" |}.

Definition workersReq : Request := {| req_NamespacedName := workersKey |}.

(** A machine set carrying the testing provider configuration, with no
    annotation map. *)
Definition workers : MachineSet :=
  {| ms_Name := "workers"; ms_Namespace := "default";
     DeletionTimestamp := None; Annotations := None;
     ms_ProviderSpec :=
       fst (TestingMachineProviderConfig {| current := V1beta1 |} "aws-creds" "c1") |}.

(** The same machine set, being deleted. *)
Definition deleting : MachineSet :=
  {| ms_Name := "workers"; ms_Namespace := "default";
     DeletionTimestamp := Some 1600000000; Annotations := None;
     ms_ProviderSpec := ms_ProviderSpec workers |}.

(** A machine set whose instance type the table does not know. *)
Definition unknownPc : providerconfigv1.AWSMachineProviderConfig :=
  {| providerconfigv1.AMI := {| providerconfigv1.Filters := [] |};
     providerconfigv1.CredentialsSecret := None;
     providerconfigv1.InstanceType := "z9.mega";
     providerconfigv1.pc_Placement :=
       {| providerconfigv1.Region := "us-east-1";
          providerconfigv1.AvailabilityZone := "us-east-1a" |};
     providerconfigv1.Subnet := {| providerconfigv1.Filters := [] |};
     providerconfigv1.Tags := [];
     providerconfigv1.SecurityGroups := [];
     providerconfigv1.PublicIP := None;
     providerconfigv1.UserDataSecret := None |}.

Definition unknown : MachineSet :=
  {| ms_Name := "workers"; ms_Namespace := "default";
     DeletionTimestamp := None;
     Annotations := Some {[ "owner" := "team-a" ]};
     ms_ProviderSpec :=
       {| Value := match Encode {| current := V1beta1 |} unknownPc with
                   | inr raw => Some raw
                   | inl _ => None
                   end |} |}.

Definition storeOf (ms : MachineSet) : State fake.Store Call :=
  {| store := {[ ("default", "workers") := ms ]}; calls := [] |}.

Definition emptyStore : State fake.Store Call :=
  {| store := ∅; calls := [] |}.

(** [Reconcile] with the table above and the modelled codec. *)
Definition run (r : MachineSetReconciler fake.Store) (s : State fake.Store Call)
  : outcome (Result * option error) * State fake.Store Call :=
  Reconcile table Codec (NewCodec V1beta1) DecodeProviderSpec r workersReq s.

End examples.

(** ** Concrete scopes *)

Module scope_examples.

Import unstructured scope.

(** The external types, made concrete: a session is the region it is bound
    to, a patch helper is the snapshot it took, the store is the object as
    the API server holds it. *)
Definition sessionForRegion (region : string) (endpoints : list unit) : error + string :=
  if String.eqb region "" then inl (ErrorString "region is required") else inr region.

Definition patch_NewHelper (obj : Unstructured) (c : option unit) : error + Unstructured :=
  inr obj.

Definition object (resourceVersion : string) (ready : bool) : Unstructured :=
  {| Object :=
       {[ "metadata" := JObject {[ "name" := JString "guest";
                                   "resourceVersion" := JString resourceVersion ]};
          "spec" := JObject {[ "region" := JString "us-east-1" ]};
          "status" := JObject {[ "ready" := JBool ready ]} ]} |}.

Definition resourceVersion (obj : Unstructured) : string :=
  (NestedString (Object obj) ["metadata"; "resourceVersion"]).1.1.

Definition owner (port : option Z) : Cluster :=
  {| cl_Name := "guest"; cl_Namespace := "default"; cl_UID := "uid-1";
     cl_ClusterNetwork := Some {| cn_APIServerPort := port |} |}.

Definition params (cluster : option Cluster) (guest : option Unstructured)
  : GuestClusterScopeParams (ClientT:=unit) (Logger:=unit) (ServiceEndpoint:=unit)
      (Session:=string) :=
  {| p_Client := Some tt; p_Logger := None; p_Cluster := cluster;
     p_GuestCluster := guest; p_ControllerName := "guestcluster";
     p_Endpoints := []; p_Session := None |}.

Definition fresh : State Unstructured (Call unit) :=
  {| store := object "1" false; calls := [] |}.

Definition NewScope (cluster : option Cluster) (guest : option Unstructured) :=
  NewGuestClusterScope tt sessionForRegion patch_NewHelper (params cluster guest) fresh.

(** A scope as [NewGuestClusterScope] builds it from [object "1" false],
    after the reconcile has set the status of the object it holds; the
    helper still has the snapshot. *)
Definition mutated : GuestClusterScope (ClientT:=unit) (Logger:=unit) (Session:=string)
                       (Helper:=Unstructured) :=
  {| s_Logger := Some tt; s_client := Some tt;
     s_patchHelper := Some (object "1" false);
     s_Cluster := Some (owner None);
     s_GuestCluster := Some {| Unstructured_of := Some (object "1" true) |};
     s_session := Some "us-east-1";
     s_controllerName := "guestcluster" |}.

(** A state in which the stored object has moved on to another resource
    version since the snapshot was taken. *)
Definition advanced : State Unstructured (Call unit) :=
  {| store := object "2" false; calls := [] |}.

(** The zero value of [GuestClusterScope]. *)
Definition zeroScope : GuestClusterScope (ClientT:=unit) (Logger:=unit) (Session:=string)
                         (Helper:=Unstructured) :=
  {| s_Logger := None; s_client := None; s_patchHelper := None; s_Cluster := None;
     s_GuestCluster := None; s_session := None; s_controllerName := "" |}.

Definition withCluster (c : Cluster)
  : GuestClusterScope (ClientT:=unit) (Logger:=unit) (Session:=string) (Helper:=Unstructured) :=
  {| s_Logger := None; s_client := None; s_patchHelper := None; s_Cluster := Some c;
     s_GuestCluster := None; s_session := None; s_controllerName := "" |}.

End scope_examples.

(** ** The other methods of the guest-cluster scope *)

Module scope_accessors.

Import unstructured scope.

Section Accessors.

Context {ClientT Logger Session Helper : Type}.

(** The types of [infrav1] and [clusterv1] the methods return or take, and
    the two constants they use. *)
Context {Network VPCSpec SubnetSpec CNIIngressRule SecurityGroupRole SecurityGroup
         AWSLoadBalancerSpec ClassicELBScheme Bastion Instance FailureDomainSpec
         Condition : Type}.
Variable VPCSpec_zero : VPCSpec.
Variable lb_Scheme : AWSLoadBalancerSpec -> option ClassicELBScheme.
Variable ClassicELBSchemeInternetFacing : ClassicELBScheme.
Variable ClusterLabelName : string.

Abbreviation Scope :=
  (GuestClusterScope (ClientT:=ClientT) (Logger:=Logger) (Session:=Session) (Helper:=Helper)).

(** A line written through the scope's logger with [Error]. *)
Record LogLine := mkLogLine {
  log_err : option error;
  log_msg : string;
}.

Definition Network_of (s : Scope) : option Network := None.

Definition VPC (s : Scope) : option VPCSpec := Some VPCSpec_zero.

(** [Subnets] is a slice; nil is [None]. *)
Definition Subnets (s : Scope) : option (list SubnetSpec) := None.

(** [SetSubnets] has an empty body: the scope is left as it is. *)
Definition SetSubnets (s : Scope) (subnets : option (list SubnetSpec)) : Scope := s.

Definition CNIIngressRules (s : Scope) : option (list CNIIngressRule) := None.

(** The security groups, a Go map; nil is [None]. *)
Definition SecurityGroups (s : Scope) : option (list (SecurityGroupRole * SecurityGroup)) := None.

Definition KubernetesClusterName (s : Scope) : outcome string :=
  match s_Cluster s with
  | None => Panic "invalid memory address or nil pointer dereference"
  | Some c => Ret (cl_Name c)
  end.

(** [Region]: the string at [spec.region] of the held object.  When it is
    not found or not a string, the error is logged and the empty string
    returned.  The result carries the lines logged. *)
Definition Region (s : Scope) : outcome (string * list LogLine) :=
  match s_GuestCluster s with
  | None => Panic "invalid memory address or nil pointer dereference"
  | Some guestCluster =>
      match Unstructured_of guestCluster with
      | None => Panic "invalid memory address or nil pointer dereference"
      | Some u =>
          let '(region, found, err) := NestedString (Object u) ["spec"; "region"] in
          if bool_decide (err <> None) || negb found then
            match s_Logger s with
            | None => Panic "invalid memory address or nil pointer dereference"
            | Some _ => Ret ("", [ {| log_err := err; log_msg := "error getting region" |} ])
            end
          else Ret (region, [])
      end
  end.

Definition ControlPlaneLoadBalancer (s : Scope) : option AWSLoadBalancerSpec := None.

Definition ControlPlaneLoadBalancerScheme (s : Scope) : ClassicELBScheme :=
  match ControlPlaneLoadBalancer s with
  | Some lb =>
      match lb_Scheme lb with
      | Some scheme => scheme
      | None => ClassicELBSchemeInternetFacing
      end
  | None => ClassicELBSchemeInternetFacing
  end.

(** [fmt.Sprintf("%s-controlplane", s.Cluster.UID)] *)
Definition ControlPlaneConfigMapName (s : Scope) : outcome string :=
  match s_Cluster s with
  | None => Panic "invalid memory address or nil pointer dereference"
  | Some c => Ret (cl_UID c +:+ "-controlplane")
  end.

(** [client.MatchingLabels] of the one-entry map literal. *)
Definition ListOptionsLabelSelector (s : Scope) : outcome (gmap string string) :=
  match s_Cluster s with
  | None => Panic "invalid memory address or nil pointer dereference"
  | Some c => Ret {[ ClusterLabelName := cl_Name c ]}
  end.

Definition AdditionalTags (s : Scope) : option (gmap string string) := None.

Definition SetFailureDomain (s : Scope) (id : string) (spec : FailureDomainSpec) : Scope := s.

Definition InfraCluster (s : Scope) : option GuestClusterObject := s_GuestCluster s.

Definition GetConditions (r : GuestClusterObject) : option (list Condition) := None.

Definition SetConditions (r : GuestClusterObject) (conditions : option (list Condition))
  : GuestClusterObject := r.

Definition Bastion_of (s : Scope) : option Bastion := None.

Definition SetBastionInstance (s : Scope) (instance : option Instance) : Scope := s.

Definition SSHKeyName (s : Scope) : option string := None.

Definition ImageLookupFormat (s : Scope) : string := "".

Definition ImageLookupOrg (s : Scope) : string := "".

Definition ImageLookupBaseOS (s : Scope) : string := "".

End Accessors.

End scope_accessors.

(** ** Testing helpers ([package utils]) *)

Module utils.

Import providerconfigv1.

(** [apiv1.Secret], with the fields the helper sets. *)
Record Secret := mkSecret {
  secret_Name : string;
  secret_Namespace : string;
  Data : gmap string (list byte);
}.

(** [clusterv1alpha1.ProviderConfig]: [Value] points to a raw extension. *)
Record ProviderConfig := mkProviderConfig {
  pc_Value : option (list byte);
}.

Definition ProviderConfig_zero : ProviderConfig := {| pc_Value := None |}.

(** [os.Getenv]: the empty string when the variable is not set. *)
Definition Getenv (env : gmap string string) (key : string) : string :=
  default "" (env !! key).

Section Utils.

(** The keys of the credentials secret, constants of [awsclient]. *)
Variable AwsCredsSecretIDKey : string.
Variable AwsCredsSecretAccessKey : string.

(** The process environment. *)
Variable env : gmap string string.

(** [providerconfigv1.Encoder.Encode], writing to a buffer. *)
Variable Encoder_Encode : AWSMachineProviderConfig -> error + list byte.

Definition GenerateAwsCredentialsSecretFromEnv (secretName namespace : string) : Secret :=
  {| secret_Name := secretName;
     secret_Namespace := namespace;
     Data :=
       <[AwsCredsSecretAccessKey := list_byte_of_string (Getenv env "AWS_SECRET_ACCESS_KEY")]>
         (<[AwsCredsSecretIDKey := list_byte_of_string (Getenv env "AWS_ACCESS_KEY_ID")]> ∅) |}.

(** The three filters every configuration selects the image with. *)
Definition amiFilters : list Filter :=
  [ {| filter_Name := "tag:image_stage"; filter_Values := ["base"] |};
    {| filter_Name := "tag:operating_system"; filter_Values := ["rhel"] |};
    {| filter_Name := "tag:ready"; filter_Values := ["yes"] |} ].

(** The tail shared by the three functions: encode, then wrap the bytes. *)
Definition encodeProviderConfig (machinePc : AWSMachineProviderConfig)
  : ProviderConfig * option error :=
  match Encoder_Encode machinePc with
  | inl err =>
      (ProviderConfig_zero,
       Some (fmt.Errorf "AWSMachineProviderConfig encoding failed: " err))
  | inr buf => ({| pc_Value := Some buf |}, None)
  end.

Definition TestingMachineProviderConfig (awsCredentialsSecretName clusterID : string)
  : ProviderConfig * option error :=
  let publicIP := true in
  let machinePc :=
    {| AMI := {| Filters := amiFilters |};
       CredentialsSecret := Some {| lor_Name := awsCredentialsSecretName |};
       InstanceType := "m4.xlarge";
       pc_Placement := {| Region := "us-east-1"; AvailabilityZone := "us-east-1a" |};
       Subnet := {| Filters :=
          [ {| filter_Name := "tag:Name";
               filter_Values := [clusterID +:+ "-worker-*"] |} ] |};
       Tags :=
          [ {| tag_Name := "openshift-node-group-config"; tag_Value := "node-config-master" |};
            {| tag_Name := "host-type"; tag_Value := "master" |};
            {| tag_Name := "sub-host-type"; tag_Value := "default" |} ];
       SecurityGroups :=
          [ {| Filters :=
              [ {| filter_Name := "tag:Name";
                   filter_Values := [clusterID +:+ "-*"] |} ] |} ];
       PublicIP := Some publicIP;
       UserDataSecret := None |} in
  encodeProviderConfig machinePc.

Definition MasterMachineProviderConfig
    (awsCredentialsSecretName masterUserDataSecretName clusterID : string)
  : ProviderConfig * option error :=
  let publicIP := true in
  let machinePc :=
    {| AMI := {| Filters := amiFilters |};
       CredentialsSecret := Some {| lor_Name := awsCredentialsSecretName |};
       InstanceType := "m4.xlarge";
       pc_Placement := {| Region := "us-east-1"; AvailabilityZone := "us-east-1a" |};
       Subnet := {| Filters :=
          [ {| filter_Name := "tag:Name";
               filter_Values := [clusterID +:+ "-worker-*"] |} ] |};
       Tags := [];
       SecurityGroups :=
          [ {| Filters :=
              [ {| filter_Name := "tag:Name";
                   filter_Values := [clusterID +:+ "-*"] |} ] |} ];
       PublicIP := Some publicIP;
       UserDataSecret := Some {| lor_Name := masterUserDataSecretName |} |} in
  encodeProviderConfig machinePc.

Definition WorkerMachineSetProviderConfig
    (awsCredentialsSecretName workerUserDataSecretName clusterID : string)
  : ProviderConfig * option error :=
  let publicIP := true in
  let machinePc :=
    {| AMI := {| Filters := amiFilters |};
       CredentialsSecret := Some {| lor_Name := awsCredentialsSecretName |};
       InstanceType := "m4.xlarge";
       pc_Placement := {| Region := "us-east-1"; AvailabilityZone := "us-east-1a" |};
       Subnet := {| Filters :=
          [ {| filter_Name := "tag:Name";
               filter_Values := [clusterID +:+ "-worker-*"] |} ] |};
       Tags := [];
       SecurityGroups :=
          [ {| Filters :=
              [ {| filter_Name := "tag:Name";
                   filter_Values := [clusterID +:+ "-*"] |} ] |} ];
       PublicIP := Some publicIP;
       UserDataSecret := Some {| lor_Name := workerUserDataSecretName |} |} in
  encodeProviderConfig machinePc.

End Utils.

End utils.

(** ** Further specification-side definitions *)

Module spec_more.

Import machineset.



(** The string at [spec.region] of an object, when there is one. *)
Definition regionOf (obj : gmap string unstructured.JSONValue) : option string :=
  match obj !! "spec" with
  | Some (unstructured.JObject m) =>
      match m !! "region" with
      | Some (unstructured.JString r) => Some r
      | _ => None
      end
  | _ => None
  end.

(** The scope [NewGuestClusterScope] builds when every step succeeds; the
    logger is the one given, or a new one. *)
Definition built {ClientT Logger ServiceEndpoint Session Helper : Type}
    (klogr_New : Logger)
    (params : scope.GuestClusterScopeParams (ClientT:=ClientT) (Logger:=Logger)
                (ServiceEndpoint:=ServiceEndpoint) (Session:=Session))
    (cluster : scope.Cluster) (guest : unstructured.Unstructured)
    (session : Session) (helper : Helper)
  : scope.GuestClusterScope (ClientT:=ClientT) (Logger:=Logger) (Session:=Session)
      (Helper:=Helper) :=
  {| scope.s_Logger := Some (default klogr_New (scope.p_Logger params));
     scope.s_client := scope.p_Client params;
     scope.s_patchHelper := Some helper;
     scope.s_Cluster := Some cluster;
     scope.s_GuestCluster := Some {| scope.Unstructured_of := Some guest |};
     scope.s_session := Some session;
     scope.s_controllerName := scope.p_ControllerName params |}.

End spec_more.

(** ** More concrete inputs *)

Module examples_more.

Import machineset codec examples.

(** A machine set whose provider spec holds no bytes. *)
Definition garbage : MachineSet :=
  {| ms_Name := "workers"; ms_Namespace := "default";
     DeletionTimestamp := None; Annotations := None;
     ms_ProviderSpec := {| Value := Some [] |} |}.

(** A machine set that already carries annotations, among them a stale
    value under one of the derived keys. *)
Definition stale : MachineSet :=
  {| ms_Name := "workers"; ms_Namespace := "default";
     DeletionTimestamp := None;
     Annotations := Some {[ "owner" := "team-a"; "machine.openshift.io/vCPU" := "96" ]};
     ms_ProviderSpec := ms_ProviderSpec workers |}.

(** A client that reads like the in-memory one and whose patches are
    refused with a conflict. *)
Definition conflict : error := StatusError StatusReasonConflict "the object has been modified".

Definition conflicting : Client fake.Store :=
  {| machineset.Get := fake.Get;
     machineset.DoPatch := fun _ _ w => (Some conflict, w) |}.

(** [Reconcile] with a codec that cannot be created. *)
Definition runNoCodec (r : MachineSetReconciler fake.Store) (s : State fake.Store Call)
  : outcome (Result * option error) * State fake.Store Call :=
  Reconcile table Codec (inl (ErrorString "no scheme")) DecodeProviderSpec r workersReq s.

End examples_more.

(** ** More concrete scopes *)

Module scope_examples_more.

Import unstructured scope scope_examples.

(** An object whose spec has no region. *)
Definition noRegion : Unstructured :=
  {| Object := {[ "spec" := JObject ∅ ]} |}.

(** An object whose region is a number. *)
Definition numericRegion : Unstructured :=
  {| Object := {[ "spec" := JObject {[ "region" := JNumber 1 ]} ]} |}.

(** An object whose region is the empty string. *)
Definition emptyRegion : Unstructured :=
  {| Object := {[ "spec" := JObject {[ "region" := JString "" ]} ]} |}.

(** A helper constructor that fails. *)
Definition failingNewHelper (obj : Unstructured) (c : option unit) : error + Unstructured :=
  inl (ErrorString "expected client to be non-nil").

Definition NewScopeWith (newHelper : Unstructured -> option unit -> error + Unstructured)
    (cluster : option Cluster) (guest : option Unstructured) :=
  NewGuestClusterScope tt sessionForRegion newHelper (params cluster guest) fresh.

(** A scope holding [guest], with a logger. *)
Definition holding (guest : Unstructured)
  : GuestClusterScope (ClientT:=unit) (Logger:=unit) (Session:=string) (Helper:=Unstructured) :=
  {| s_Logger := Some tt; s_client := Some tt; s_patchHelper := Some guest;
     s_Cluster := Some (owner None);
     s_GuestCluster := Some {| Unstructured_of := Some guest |};
     s_session := Some "us-east-1"; s_controllerName := "guestcluster" |}.

End scope_examples_more.

(** * Properties *)

(** ** The MachineSet reconciler *)

Module MachinesetFacts.

Import providerconfigv1 machineset spec.

Section Reconciler.

Context {W : Type}.
Variable InstanceTypes : gmap string InstanceTypeInfo.
Variable Codec : Type.
Variable NewCodec : error + Codec.
Variable DecodeProviderSpec : Codec -> ProviderSpec -> error + AWSMachineProviderConfig.

Abbreviation Reconcile' := (Reconcile (W:=W) InstanceTypes Codec NewCodec DecodeProviderSpec).

Lemma annotated_Annotations it ms :
  Annotations (annotated it ms) =
  Some (<[GPUKey := strconv.FormatInt (VCPU it)]>
          (<[memoryMbKey := strconv.FormatInt (VCPU it)]>
             (<[vCPUKey := strconv.FormatInt (VCPU it)]>
                (default ∅ (Annotations ms))))).
Proof. reflexivity. Qed.

(** The path through fetch, deletion check and decode down to the patch:
    one [Get], one decode, one [Patch] of the annotated object against the
    fetched one. *)
Lemma Reconcile_patch_path r req s ms codec pc :
  Get (r_Client r) (req_NamespacedName req) (store s) = inr ms ->
  Time_IsZero (DeletionTimestamp ms) = true ->
  NewCodec = inr codec ->
  DecodeProviderSpec codec (ms_ProviderSpec ms) = inr pc ->
  let obj := annotated (mapaccess InstanceTypes (InstanceType pc)) ms in
  Reconcile' r req s =
  (Ret (patchResult (fst (DoPatch (r_Client r) obj (MergeFrom ms) (store s)))),
   {| store := snd (DoPatch (r_Client r) obj (MergeFrom ms) (store s));
      calls := calls s ++ [CallGet (req_NamespacedName req);
                           CallDecode (ms_ProviderSpec ms);
                           CallPatch obj (MergeFrom ms)] |}).
Proof.
  intros Hget Hdel Hcodec Hdec obj. subst obj.
  unfold Reconcile, callGet, getproviderConfig, callPatch, bind, record, ret, lift,
    annotated, DeepCopy, vCPUKey, memoryMbKey, GPUKey; simpl.
  rewrite Hget, Hdel, Hcodec; simpl. rewrite Hdec; simpl.
  destruct ms as [n ns dt [g|] ps]; simpl; unfold set_Annotations; simpl;
    match goal with
    | |- context [DoPatch ?c ?o ?p ?w] => destruct (DoPatch c o p w) as [[perr|] w']
    end; simpl; rewrite <- !app_assoc; reflexivity.
Qed.


Lemma patchCalls_app (cs cs' : list Call) :
  patchCalls (cs ++ cs') = patchCalls cs ++ patchCalls cs'.
Proof. unfold patchCalls. apply omap_app. Qed.

Lemma decodeCalls_app (cs cs' : list Call) :
  decodeCalls (cs ++ cs') = decodeCalls cs ++ decodeCalls cs'.
Proof. unfold decodeCalls. apply omap_app. Qed.

(** Writing the three keys a second time changes nothing. *)
Lemma annotated_idempotent it ms :
  annotated it (annotated it ms) = annotated it ms.
Proof.
  unfold annotated at 1. rewrite annotated_Annotations. simpl.
  unfold annotated, set_Annotations. simpl. f_equal. f_equal.
  apply map_eq. intros k.
  rewrite !lookup_insert. repeat case_decide; reflexivity.
Qed.

(** A map has no delta against itself. *)
Lemma annotationsDelta_same (a : option (gmap string string)) :
  mergepatch.annotationsDelta a a = ∅.
Proof.
  unfold mergepatch.annotationsDelta. apply map_eq. intros k.
  rewrite lookup_merge, lookup_empty.
  destruct (default ∅ a !! k) as [v|]; simpl; [|reflexivity].
  case_decide; [reflexivity|congruence].
Qed.

(** [Reconcile] returns on every input: none of its steps panics. *)
Lemma Reconcile_returns r req s :
  exists v, fst (Reconcile' r req s) = Ret v.
Proof.
  unfold Reconcile, callGet, getproviderConfig, callPatch, bind, record, ret, lift; simpl.
  destruct (Get (r_Client r) (req_NamespacedName req) (store s)) as [err|ms]; simpl.
  { destruct (apierrors.IsNotFound err); eauto. }
  destruct (negb (Time_IsZero (DeletionTimestamp ms))); simpl; [eauto|].
  destruct NewCodec as [err|codec]; simpl; [eauto|].
  destruct (DecodeProviderSpec codec (ms_ProviderSpec ms)) as [err|pc]; simpl; [eauto|].
  destruct ms as [n ns dt [g|] ps]; simpl;
    match goal with
    | |- context [DoPatch ?c ?o ?p ?w] => destruct (DoPatch c o p w) as [[perr|] w']
    end; simpl; eauto.
Qed.

(** C4: a fetched resource whose deletion timestamp is set ends the
    reconcile right after the deletion check: the result is the zero
    [Result] with a nil error, the only call made is the [Get], nothing is
    decoded, nothing is patched and the store is left as it was. *)
Theorem Reconcile_deleting_is_terminal r req s ms :
  Get (r_Client r) (req_NamespacedName req) (store s) = inr ms ->
  Time_IsZero (DeletionTimestamp ms) = false ->
  Reconcile' r req s =
    (Ret (Result_zero, None),
     {| store := store s; calls := calls s ++ [CallGet (req_NamespacedName req)] |})
  /\ patchCalls (calls (snd (Reconcile' r req s))) = patchCalls (calls s)
  /\ decodeCalls (calls (snd (Reconcile' r req s))) = decodeCalls (calls s)
  /\ store (snd (Reconcile' r req s)) = store s.
Proof.
  intros Hget Hdel.
  assert (Hrun : Reconcile' r req s =
    (Ret (Result_zero, None),
     {| store := store s; calls := calls s ++ [CallGet (req_NamespacedName req)] |})).
  { unfold Reconcile, callGet, bind, record, ret; simpl.
    rewrite Hget, Hdel. reflexivity. }
  rewrite Hrun; simpl.
  rewrite patchCalls_app, decodeCalls_app; simpl.
  rewrite !app_nil_r. auto.
Qed.

(** C5: when the fetch fails, [Reconcile] makes no further call; a
    not-found error gives the zero [Result] (no requeue) with a nil error,
    any other error is returned as it is, next to the zero [Result], for the
    request to be requeued. *)
Theorem Reconcile_fetch_error r req s err :
  Get (r_Client r) (req_NamespacedName req) (store s) = inl err ->
  Reconcile' r req s =
    (Ret (Result_zero, if apierrors.IsNotFound err then None else Some err),
     {| store := store s; calls := calls s ++ [CallGet (req_NamespacedName req)] |})
  /\ patchCalls (calls (snd (Reconcile' r req s))) = patchCalls (calls s)
  /\ store (snd (Reconcile' r req s)) = store s.
Proof.
  intros Hget.
  assert (Hrun : Reconcile' r req s =
    (Ret (Result_zero, if apierrors.IsNotFound err then None else Some err),
     {| store := store s; calls := calls s ++ [CallGet (req_NamespacedName req)] |})).
  { unfold Reconcile, callGet, bind, record, ret; simpl.
    rewrite Hget. destruct (apierrors.IsNotFound err); reflexivity. }
  rewrite Hrun; simpl.
  rewrite patchCalls_app; simpl. rewrite app_nil_r. auto.
Qed.

(** C7: an instance type without an entry in [InstanceTypes] is looked up
    as the zero descriptor, not as an error: the reconcile goes on to the
    patch, with the three annotations written as "0", and its result is the
    one built from the result of the patch. *)
Theorem Reconcile_unknown_instance_type r req s ms codec pc :
  Get (r_Client r) (req_NamespacedName req) (store s) = inr ms ->
  Time_IsZero (DeletionTimestamp ms) = true ->
  NewCodec = inr codec ->
  DecodeProviderSpec codec (ms_ProviderSpec ms) = inr pc ->
  InstanceTypes !! InstanceType pc = None ->
  mapaccess InstanceTypes (InstanceType pc) = InstanceTypeInfo_zero
  /\ exists obj m,
       patchCalls (calls (snd (Reconcile' r req s)))
         = patchCalls (calls s) ++ [(obj, MergeFrom ms)]
       /\ Annotations obj = Some m
       /\ m !! vCPUKey = Some "0"
       /\ m !! memoryMbKey = Some "0"
       /\ m !! GPUKey = Some "0"
       /\ fst (Reconcile' r req s)
          = Ret (patchResult (fst (DoPatch (r_Client r) obj (MergeFrom ms) (store s)))).
Proof.
  intros Hget Hdel Hcodec Hdec Hnone.
  assert (Hzero : mapaccess InstanceTypes (InstanceType pc) = InstanceTypeInfo_zero).
  { unfold mapaccess. rewrite Hnone. reflexivity. }
  split; [exact Hzero|].
  rewrite (Reconcile_patch_path r req s ms codec pc Hget Hdel Hcodec Hdec). simpl.
  rewrite Hzero.
  eexists. eexists. split.
  { rewrite patchCalls_app. simpl. reflexivity. }
  split; [apply annotated_Annotations|].
  unfold vCPUKey, memoryMbKey, GPUKey.
  repeat split; try (rewrite !lookup_insert; repeat case_decide; try congruence; reflexivity).
Qed.

(** C9: when the fetched resource has a nil annotation map, the reconcile
    allocates the map before the three writes: it returns instead of
    panicking, and the object handed to the patch carries a map holding the
    three written keys and nothing else. *)
Theorem Reconcile_allocates_annotations r req s ms codec pc :
  Get (r_Client r) (req_NamespacedName req) (store s) = inr ms ->
  Time_IsZero (DeletionTimestamp ms) = true ->
  NewCodec = inr codec ->
  DecodeProviderSpec codec (ms_ProviderSpec ms) = inr pc ->
  Annotations ms = None ->
  let v := strconv.FormatInt (VCPU (mapaccess InstanceTypes (InstanceType pc))) in
  (exists res, fst (Reconcile' r req s) = Ret res)
  /\ exists obj,
       patchCalls (calls (snd (Reconcile' r req s)))
         = patchCalls (calls s) ++ [(obj, MergeFrom ms)]
       /\ Annotations obj
          = Some (<[GPUKey := v]> (<[memoryMbKey := v]> (<[vCPUKey := v]> ∅))).
Proof.
  intros Hget Hdel Hcodec Hdec Hnil v.
  rewrite (Reconcile_patch_path r req s ms codec pc Hget Hdel Hcodec Hdec). simpl.
  split; [eauto|].
  eexists. split.
  { rewrite patchCalls_app. simpl. reflexivity. }
  rewrite annotated_Annotations, Hnil. reflexivity.
Qed.

(** C8: the annotations [Reconcile] computes depend on the fetched object
    alone.  A run that fetches [ms] patches the annotated [ms]; a second run
    that fetches the same [ms] patches the very same object; and a run that
    fetches the object the first run produced patches an object with the
    same annotation map, so that the merge patch has no annotation key in
    it. *)
Theorem Reconcile_idempotent r req s1 s2 s3 ms codec pc :
  Get (r_Client r) (req_NamespacedName req) (store s1) = inr ms ->
  Time_IsZero (DeletionTimestamp ms) = true ->
  NewCodec = inr codec ->
  DecodeProviderSpec codec (ms_ProviderSpec ms) = inr pc ->
  Get (r_Client r) (req_NamespacedName req) (store s2) = inr ms ->
  Get (r_Client r) (req_NamespacedName req) (store s3)
    = inr (annotated (mapaccess InstanceTypes (InstanceType pc)) ms) ->
  exists obj1 obj2 obj3,
    patchCalls (calls (snd (Reconcile' r req s1)))
      = patchCalls (calls s1) ++ [(obj1, MergeFrom ms)]
    /\ patchCalls (calls (snd (Reconcile' r req s2)))
      = patchCalls (calls s2) ++ [(obj2, MergeFrom ms)]
    /\ patchCalls (calls (snd (Reconcile' r req s3)))
      = patchCalls (calls s3) ++ [(obj3, MergeFrom obj1)]
    /\ Annotations obj2 = Annotations obj1
    /\ Annotations obj3 = Annotations obj1
    /\ mergepatch.annotationsDelta (Annotations obj1) (Annotations obj3) = ∅.
Proof.
  intros Hget1 Hdel Hcodec Hdec Hget2 Hget3.
  set (it := mapaccess InstanceTypes (InstanceType pc)) in *.
  exists (annotated it ms), (annotated it ms), (annotated it ms).
  rewrite (Reconcile_patch_path r req s1 ms codec pc Hget1 Hdel Hcodec Hdec).
  rewrite (Reconcile_patch_path r req s2 ms codec pc Hget2 Hdel Hcodec Hdec).
  rewrite (Reconcile_patch_path r req s3 (annotated it ms) codec pc Hget3 Hdel Hcodec Hdec).
  simpl. fold it. rewrite annotated_idempotent, !patchCalls_app. simpl.
  repeat split. apply annotationsDelta_same.
Qed.

End Reconciler.

(** *** The reconciler on concrete stores *)

Import examples.

Abbreviation thePc := (codec.TestingMachinePc "aws-creds" "c1").
Abbreviation theCodec := (codec.mkCodec codec.V1beta1).

Lemma Reconcile_deleting_is_terminal_witness :
  Get fake.client workersKey (store (storeOf deleting)) = inr deleting
  /\ Time_IsZero (DeletionTimestamp deleting) = false
  /\ run fake.reconciler (storeOf deleting)
     = (Ret (Result_zero, None),
        {| store := store (storeOf deleting); calls := [CallGet workersKey] |}).
Proof.
  split; [vm_compute; reflexivity|]. split; [vm_compute; reflexivity|].
  apply (Reconcile_deleting_is_terminal table codec.Codec (codec.NewCodec codec.V1beta1)
           codec.DecodeProviderSpec fake.reconciler workersReq (storeOf deleting) deleting);
    vm_compute; reflexivity.
Defined.

Lemma Reconcile_fetch_error_witness :
  Get fake.client workersKey (store emptyStore) = inl fake.notFound
  /\ run fake.reconciler emptyStore
     = (Ret (Result_zero, None),
        {| store := store emptyStore; calls := [CallGet workersKey] |}).
Proof.
  split; [vm_compute; reflexivity|].
  apply (Reconcile_fetch_error table codec.Codec (codec.NewCodec codec.V1beta1)
           codec.DecodeProviderSpec fake.reconciler workersReq emptyStore fake.notFound).
  vm_compute; reflexivity.
Defined.

(** A read that fails with an error other than not-found: the error comes
    back as it is. *)
Example Reconcile_fetch_timeout :
  fst (run {| r_Client := fake.failing (ErrorString "timeout") |} emptyStore)
  = Ret (Result_zero, Some (ErrorString "timeout")).
Proof. vm_compute. reflexivity. Qed.

Lemma Reconcile_unknown_instance_type_witness :
  Get fake.client workersKey (store (storeOf unknown)) = inr unknown
  /\ Time_IsZero (DeletionTimestamp unknown) = true
  /\ codec.DecodeProviderSpec theCodec (ms_ProviderSpec unknown) = inr unknownPc
  /\ table !! InstanceType unknownPc = None
  /\ mapaccess table (InstanceType unknownPc) = InstanceTypeInfo_zero.
Proof.
  assert (H1 : Get fake.client workersKey (store (storeOf unknown)) = inr unknown)
    by (vm_compute; reflexivity).
  assert (H2 : Time_IsZero (DeletionTimestamp unknown) = true) by reflexivity.
  assert (H3 : codec.DecodeProviderSpec theCodec (ms_ProviderSpec unknown) = inr unknownPc)
    by (vm_compute; reflexivity).
  assert (H4 : table !! InstanceType unknownPc = None) by (vm_compute; reflexivity).
  repeat (split; [assumption|]).
  exact (proj1 (Reconcile_unknown_instance_type table codec.Codec
                  (codec.NewCodec codec.V1beta1) codec.DecodeProviderSpec fake.reconciler
                  workersReq (storeOf unknown) unknown theCodec unknownPc
                  H1 H2 eq_refl H3 H4)).
Defined.

Lemma Reconcile_allocates_annotations_witness :
  Get fake.client workersKey (store (storeOf workers)) = inr workers
  /\ Time_IsZero (DeletionTimestamp workers) = true
  /\ codec.DecodeProviderSpec theCodec (ms_ProviderSpec workers) = inr thePc
  /\ Annotations workers = None
  /\ exists res, fst (run fake.reconciler (storeOf workers)) = Ret res.
Proof.
  assert (H1 : Get fake.client workersKey (store (storeOf workers)) = inr workers)
    by (vm_compute; reflexivity).
  assert (H2 : Time_IsZero (DeletionTimestamp workers) = true) by reflexivity.
  assert (H3 : codec.DecodeProviderSpec theCodec (ms_ProviderSpec workers) = inr thePc)
    by (vm_compute; reflexivity).
  assert (H4 : Annotations workers = None) by reflexivity.
  repeat (split; [assumption|]).
  exact (proj1 (Reconcile_allocates_annotations table codec.Codec
                  (codec.NewCodec codec.V1beta1) codec.DecodeProviderSpec fake.reconciler
                  workersReq (storeOf workers) workers theCodec thePc
                  H1 H2 eq_refl H3 H4)).
Defined.

(** The second run starts where the first one stopped: the store then holds
    the object the first run patched. *)
Lemma Reconcile_idempotent_witness :
  let s1 := storeOf workers in
  let s3 := snd (run fake.reconciler s1) in
  Get fake.client workersKey (store s1) = inr workers
  /\ Time_IsZero (DeletionTimestamp workers) = true
  /\ codec.DecodeProviderSpec theCodec (ms_ProviderSpec workers) = inr thePc
  /\ Get fake.client workersKey (store s3)
     = inr (annotated (mapaccess table (InstanceType thePc)) workers)
  /\ exists obj1 obj2 obj3,
       patchCalls (calls (snd (run fake.reconciler s1)))
         = patchCalls (calls s1) ++ [(obj1, MergeFrom workers)]
       /\ patchCalls (calls (snd (run fake.reconciler s1)))
         = patchCalls (calls s1) ++ [(obj2, MergeFrom workers)]
       /\ patchCalls (calls (snd (run fake.reconciler s3)))
         = patchCalls (calls s3) ++ [(obj3, MergeFrom obj1)]
       /\ Annotations obj2 = Annotations obj1
       /\ Annotations obj3 = Annotations obj1
       /\ mergepatch.annotationsDelta (Annotations obj1) (Annotations obj3) = ∅.
Proof.
  intros s1 s3.
  assert (H1 : Get fake.client workersKey (store s1) = inr workers)
    by (vm_compute; reflexivity).
  assert (H2 : Time_IsZero (DeletionTimestamp workers) = true) by reflexivity.
  assert (H3 : codec.DecodeProviderSpec theCodec (ms_ProviderSpec workers) = inr thePc)
    by (vm_compute; reflexivity).
  assert (H4 : Get fake.client workersKey (store s3)
               = inr (annotated (mapaccess table (InstanceType thePc)) workers))
    by (vm_compute; reflexivity).
  repeat (split; [assumption|]).
  exact (Reconcile_idempotent table codec.Codec
           (codec.NewCodec codec.V1beta1) codec.DecodeProviderSpec fake.reconciler
           workersReq s1 s1 s3 workers theCodec thePc H1 H2 eq_refl H3 H1 H4).
Defined.

(** C1: on the machine set whose instance type is "m4.xlarge", with the
    table entry (vCPU 4, memory 16384, GPU 0), the object handed to the patch
    carries "4" under all three keys: the memory and GPU annotations are
    rendered from the vCPU field, not from the memory and GPU fields. *)
Theorem Reconcile_m4_xlarge_annotations :
  InstanceType thePc = "m4.xlarge"
  /\ mapaccess table "m4.xlarge" = {| VCPU := 4; MemoryMb := 16384; GPU := 0 |}
  /\ exists obj,
       patchCalls (calls (snd (run fake.reconciler (storeOf workers))))
         = [(obj, MergeFrom workers)]
       /\ Annotations obj
          = Some (<[vCPUKey := "4"]> (<[memoryMbKey := "4"]> (<[GPUKey := "4"]> ∅)))
       /\ Annotations obj
          <> Some (<[vCPUKey := "4"]> (<[memoryMbKey := "16384"]> (<[GPUKey := "0"]> ∅))).
Proof.
  split; [reflexivity|]. split; [vm_compute; reflexivity|].
  eexists. split; [vm_compute; reflexivity|].
  split; [vm_compute; reflexivity|].
  vm_compute. discriminate.
Qed.

End MachinesetFacts.

(** ** The provider-configuration codec *)

Module CodecFacts.

Import providerconfigv1 codec.

Lemma to_N_byte_of_N (n : N) : (n < 256)%N -> Byte.to_N (byte_of_N n) = n.
Proof.
  intros Hn. unfold byte_of_N.
  destruct (Byte.of_N n) as [b|] eqn:Hb; simpl.
  - apply Byte.to_of_N. exact Hb.
  - apply Byte.of_N_None_iff in Hb. lia.
Qed.

Lemma get_put_uvarint_fuel (fuel : nat) :
  forall (n : N) (rest : list byte),
    (n < 128 * 2 ^ N.of_nat fuel)%N ->
    get_uvarint (put_uvarint_fuel fuel n ++ rest) = Some (n, rest).
Proof.
  induction fuel as [|fuel IH]; intros n rest Hn.
  - simpl in Hn. simpl. assert (Hlt : (n <? 128)%N = true) by (apply N.ltb_lt; lia).
    rewrite Hlt. simpl. rewrite to_N_byte_of_N by lia. rewrite Hlt. reflexivity.
  - cbn [put_uvarint_fuel]. destruct (n <? 128)%N eqn:Hlt.
    + simpl. rewrite to_N_byte_of_N by (apply N.ltb_lt in Hlt; lia).
      rewrite Hlt. reflexivity.
    + apply N.ltb_ge in Hlt.
      pose proof (N.div_mod n 128 ltac:(discriminate)) as Hdm.
      pose proof (N.mod_lt n 128 ltac:(discriminate)) as Hmod.
      assert (Hq : (n / 128 < 128 * 2 ^ N.of_nat fuel)%N).
      { rewrite Nat2N.inj_succ, N.pow_succ_r' in Hn.
        apply N.Div0.div_lt_upper_bound.
        remember (2 ^ N.of_nat fuel)%N as p. lia. }
      remember (n mod 128)%N as m. remember (n / 128)%N as q.
      cbn [app get_uvarint]. rewrite to_N_byte_of_N by lia.
      assert (Hge : (128 + m <? 128)%N = false) by (apply N.ltb_ge, N.le_add_r).
      rewrite Hge, (IH q rest Hq).
      f_equal. f_equal. lia.
Qed.

Lemma get_put_uvarint (n : N) (rest : list byte) :
  get_uvarint (put_uvarint n ++ rest) = Some (n, rest).
Proof.
  unfold put_uvarint. apply get_put_uvarint_fuel.
  rewrite N2Nat.id.
  destruct (N.eq_dec n 0%N) as [->|Hn0]; [reflexivity|].
  pose proof (N.log2_spec n ltac:(lia)) as [_ Hup].
  rewrite N.pow_succ_r' in Hup.
  remember (2 ^ N.log2 n)%N as p. lia.
Qed.

#[export] Instance WireOk_string : WireOk string.
Proof.
  intros s rest. unfold get, put, Wire_string, put_string, get_string.
  rewrite <- app_assoc, get_put_uvarint, Nat2N.id.
  rewrite length_app.
  destruct (Nat.leb_spec (length (list_byte_of_string s))
              (length (list_byte_of_string s) + length rest)) as [_|Hlt]; [|lia].
  rewrite take_app_length, drop_app_length, string_of_list_byte_of_string.
  reflexivity.
Qed.

#[export] Instance WireOk_bool : WireOk bool.
Proof. intros [|] rest; reflexivity. Qed.

#[export] Instance WireOk_option {A} `{WireOk A} : WireOk (option A).
Proof.
  intros [a|] rest; [|reflexivity].
  cbn. rewrite get_put. reflexivity.
Qed.

Lemma get_elems_put_elems {A} `{WireOk A} (l : list A) (rest : list byte) :
  get_elems (length l) (put_elems l ++ rest) = Some (l, rest).
Proof.
  induction l as [|a l IH]; [reflexivity|].
  cbn [length put_elems get_elems]. rewrite <- app_assoc, get_put, IH. reflexivity.
Qed.

#[export] Instance WireOk_list {A} `{WireOk A} : WireOk (list A).
Proof.
  intros l rest. cbn [get put Wire_list].
  rewrite <- app_assoc, get_put_uvarint, Nat2N.id.
  apply get_elems_put_elems.
Qed.

(** A record is read back field after field. *)
Ltac fields :=
  intros [] rest; cbn [get put]; cbn -[get put];
  repeat (rewrite <- ?app_assoc, get_put; cbn -[get put]);
  reflexivity.

#[export] Instance WireOk_Filter : WireOk Filter.
Proof. unfold WireOk. cbn [get put Wire_Filter]. fields. Qed.

#[export] Instance WireOk_AWSResourceReference : WireOk AWSResourceReference.
Proof. unfold WireOk. cbn [get put Wire_AWSResourceReference]. fields. Qed.

#[export] Instance WireOk_LocalObjectReference : WireOk LocalObjectReference.
Proof. unfold WireOk. cbn [get put Wire_LocalObjectReference]. fields. Qed.

#[export] Instance WireOk_Placement : WireOk Placement.
Proof. unfold WireOk. cbn [get put Wire_Placement]. fields. Qed.

#[export] Instance WireOk_TagSpecification : WireOk TagSpecification.
Proof. unfold WireOk. cbn [get put Wire_TagSpecification]. fields. Qed.

#[export] Instance WireOk_AWSMachineProviderConfig : WireOk AWSMachineProviderConfig.
Proof. unfold WireOk. cbn [get put Wire_AWSMachineProviderConfig]. fields. Qed.

#[export] Instance WireOk_TypeMeta : WireOk TypeMeta.
Proof. unfold WireOk. cbn [get put Wire_TypeMeta]. fields. Qed.

(** The marker of a supported version is recognised as that version. *)
Lemma recognise_marker (ver : SchemaVersion) : recognise (marker ver) = Some ver.
Proof. destruct ver; reflexivity. Qed.

Lemma schema_get_put (ver : SchemaVersion) (v : AWSMachineProviderConfig) :
  schema_get ver (schema_put ver v) = Some (v, []).
Proof.
  rewrite <- (app_nil_r (schema_put ver v)).
  destruct ver; apply (get_put (A:=AWSMachineProviderConfig)).
Qed.

(** C2: for every provider configuration [v] and each of the schema
    versions the codec supports, encoding [v] succeeds and decoding the bytes
    gives [v] back, whichever supported version the decoding codec is at and
    whatever version the caller hints at. *)
Theorem Decode_Encode (enc dec : Codec) (hint : SchemaVersion) (v : AWSMachineProviderConfig) :
  exists raw, Encode enc v = inr raw /\ Decode dec raw hint = inr v.
Proof.
  exists (put (marker (current enc)) ++ schema_put (current enc) v).
  split; [reflexivity|].
  unfold Decode.
  rewrite (get_put (A:=TypeMeta)), recognise_marker, schema_get_put.
  reflexivity.
Qed.

(** A payload whose marker no registered schema answers to is refused with
    a [SchemaError]. *)
Lemma Decode_unrecognised (c : Codec) (hint : SchemaVersion) (m : TypeMeta) (body : list byte) :
  recognise m = None ->
  Decode c (put m ++ body) hint = inl (SchemaError m).
Proof.
  intros Hm. unfold Decode. rewrite (get_put (A:=TypeMeta)), Hm. reflexivity.
Qed.

(** The testing configuration goes through the reconciler's decoder. *)
Example Decode_TestingMachineProviderConfig :
  DecodeProviderSpec {| current := V1beta1 |}
    (fst (TestingMachineProviderConfig {| current := V1alpha1 |} "aws-creds" "c1"))
  = inr (TestingMachinePc "aws-creds" "c1").
Proof. vm_compute. reflexivity. Qed.

End CodecFacts.

(** ** The guest-cluster scope *)

Module ScopeFacts.

Import unstructured scope spec.

Section Scope.

Context {W ClientT Logger ServiceEndpoint Session Helper : Type}.
Variable klogr_New : Logger.
Variable sessionForRegion : string -> list ServiceEndpoint -> error + Session.
Variable patch_NewHelper : Unstructured -> option ClientT -> error + Helper.

Abbreviation NewGuestClusterScope' :=
  (NewGuestClusterScope (W:=W) klogr_New sessionForRegion patch_NewHelper).

(** C6: with a nil [Cluster] or a nil [GuestCluster], [NewGuestClusterScope]
    returns a nil scope and an error, and makes no call at all: the session
    factory is not invoked. *)
Theorem NewGuestClusterScope_nil_inputs
    (params : GuestClusterScopeParams (ClientT:=ClientT) (Logger:=Logger)
                (ServiceEndpoint:=ServiceEndpoint) (Session:=Session))
    (st : State W (Call ServiceEndpoint)) :
  p_Cluster params = None \/ p_GuestCluster params = None ->
  (exists err, NewGuestClusterScope' params st = (Ret (None, Some err), st))
  /\ sessionCalls (calls (snd (NewGuestClusterScope' params st))) = sessionCalls (calls st).
Proof.
  intros Hnil. unfold NewGuestClusterScope, ret.
  destruct (p_Cluster params) as [cluster|] eqn:Hc.
  - destruct Hnil as [Hnil|Hnil]; [discriminate|]. rewrite Hnil. eauto.
  - eauto.
Qed.

(** The scope [NewGuestClusterScope] returns holds the cluster it was
    given, which is not nil. *)
Lemma NewGuestClusterScope_Cluster params st s err st' :
  NewGuestClusterScope' params st = (Ret (Some s, err), st') ->
  s_Cluster s = p_Cluster params /\ is_Some (s_Cluster s).
Proof.
  unfold NewGuestClusterScope, callSessionForRegion, callNewHelper, bind, record, ret.
  destruct (p_Cluster params) as [cluster|]; [|intros [=]].
  destruct (p_GuestCluster params) as [guestCluster|]; [|intros [=]].
  destruct (NestedString (Object guestCluster) ["spec"; "region"]) as [[region found] e].
  destruct (bool_decide (e <> None) || negb found); [intros [=]|]. simpl.
  destruct (sessionForRegion region (p_Endpoints params)); [intros [=]|]. simpl.
  destruct (patch_NewHelper guestCluster (p_Client params)); intros [=]; subst.
  simpl. eauto.
Qed.

(** C10: on a scope whose [Cluster] is not nil, [APIServerPort] returns
    the port the cluster network points to when both pointers are set, and
    6443 otherwise. *)
Theorem APIServerPort_spec
    (s : GuestClusterScope (ClientT:=ClientT) (Logger:=Logger) (Session:=Session)
           (Helper:=Helper))
    (cluster : Cluster) :
  s_Cluster s = Some cluster ->
  APIServerPort s =
  Ret (match cl_ClusterNetwork cluster with
       | Some network =>
           match cn_APIServerPort network with
           | Some port => port
           | None => 6443
           end
       | None => 6443
       end).
Proof.
  intros Hc. unfold APIServerPort. rewrite Hc.
  destruct (cl_ClusterNetwork cluster) as [network|]; [|reflexivity].
  destruct (cn_APIServerPort network); reflexivity.
Qed.

End Scope.

(** *** The scope on concrete inputs *)

Import scope_examples.

(** With both references set, the scope is built: the session factory is
    called once, with the region of the object, and the helper once. *)
Example NewGuestClusterScope_builds :
  exists s,
    NewScope (Some (owner None)) (Some (object "1" false))
    = (Ret (Some s, None),
       {| store := object "1" false;
          calls := [CallSessionForRegion "us-east-1" [];
                    CallNewHelper (object "1" false)] |})
    /\ s_session s = Some "us-east-1"
    /\ s_patchHelper s = Some (object "1" false).
Proof. eexists. split; [vm_compute; reflexivity|]. split; reflexivity. Qed.

Lemma NewGuestClusterScope_nil_inputs_witness :
  (p_Cluster (params None (Some (object "1" false))) = None
   \/ p_GuestCluster (params None (Some (object "1" false))) = None)
  /\ (exists err, NewScope None (Some (object "1" false)) = (Ret (None, Some err), fresh)).
Proof.
  split; [left; reflexivity|].
  apply (NewGuestClusterScope_nil_inputs tt sessionForRegion patch_NewHelper
           (params None (Some (object "1" false))) fresh).
  left; reflexivity.
Defined.

(** C3: [Close] returns nil on every scope and in every state, and leaves
    the state as it was: no patch is computed, no call reaches the patch
    helper or the store, and no conflict is reported.  So it is on the scope
    [mutated], whose live object differs from the snapshot of its helper,
    closed in the state [advanced], where the stored object is at another
    resource version than the snapshot. *)
Theorem Close_persists_nothing :
  (forall (W ClientT Logger ServiceEndpoint Session Helper : Type)
          (s : GuestClusterScope (ClientT:=ClientT) (Logger:=Logger) (Session:=Session)
                 (Helper:=Helper))
          (st : State W (Call ServiceEndpoint)),
      Close s st = (Ret None, st))
  /\ s_GuestCluster mutated <> Some {| Unstructured_of := s_patchHelper mutated |}
  /\ resourceVersion (store advanced) <> resourceVersion (object "1" false)
  /\ fst (Close mutated advanced) = Ret None
  /\ helperPatchCalls (calls (snd (Close mutated advanced))) = []
  /\ store (snd (Close mutated advanced)) = store advanced.
Proof.
  split.
  { intros W ClientT Logger ServiceEndpoint Session Helper s st.
    unfold Close, PatchObject, ret. reflexivity. }
  split; [vm_compute; discriminate|].
  split; [vm_compute; discriminate|].
  repeat split.
Qed.

Lemma APIServerPort_spec_witness :
  s_Cluster (withCluster (owner (Some 8443))) = Some (owner (Some 8443))
  /\ APIServerPort (withCluster (owner (Some 8443))) = Ret 8443.
Proof.
  split; [reflexivity|].
  apply (APIServerPort_spec (withCluster (owner (Some 8443))) (owner (Some 8443))).
  reflexivity.
Defined.

(** On the zero value of [GuestClusterScope] the call dereferences the nil
    [Cluster] pointer: no port is returned. *)
Lemma APIServerPort_nil_Cluster :
  ~ exists port, APIServerPort zeroScope = Ret port.
Proof. intros [port H]. discriminate H. Qed.

End ScopeFacts.

(** ** More on the MachineSet reconciler *)

Module MachinesetMore.

Import providerconfigv1 machineset spec spec_more.

Section Reconciler.

Context {W : Type}.
Variable InstanceTypes : gmap string InstanceTypeInfo.
Variable Codec : Type.
Variable NewCodec : error + Codec.
Variable DecodeProviderSpec : Codec -> ProviderSpec -> error + AWSMachineProviderConfig.

Abbreviation Reconcile' := (Reconcile (W:=W) InstanceTypes Codec NewCodec DecodeProviderSpec).
Abbreviation patch_path :=
  (MachinesetFacts.Reconcile_patch_path InstanceTypes Codec NewCodec DecodeProviderSpec).

(** X1: when the codec cannot be created, [Reconcile] returns the error
    wrapped twice, after the [Get] alone: nothing is decoded, nothing is
    patched, the store is as it was. *)
Theorem Reconcile_codec_failure r req s ms err :
  Get (r_Client r) (req_NamespacedName req) (store s) = inr ms ->
  Time_IsZero (DeletionTimestamp ms) = true ->
  NewCodec = inl err ->
  Reconcile' r req s =
    (Ret (Result_zero,
          Some (ErrorString
                  ("failed to get providerConfig: failed to create codec: " +:+ Error err))),
     {| store := store s; calls := calls s ++ [CallGet (req_NamespacedName req)] |}).
Proof.
  intros Hget Hdel Hcodec.
  unfold Reconcile, callGet, getproviderConfig, bind, record, ret; simpl.
  rewrite Hget, Hdel, Hcodec. reflexivity.
Qed.

(** X2: when the provider spec cannot be decoded, [Reconcile] returns the
    error wrapped twice, after the [Get] and the decode: nothing is patched
    and the store is as it was. *)
Theorem Reconcile_decode_failure r req s ms codec err :
  Get (r_Client r) (req_NamespacedName req) (store s) = inr ms ->
  Time_IsZero (DeletionTimestamp ms) = true ->
  NewCodec = inr codec ->
  DecodeProviderSpec codec (ms_ProviderSpec ms) = inl err ->
  Reconcile' r req s =
    (Ret (Result_zero,
          Some (ErrorString
                  ("failed to get providerConfig: failed to decode machineSet provider config: "
                   +:+ Error err))),
     {| store := store s;
        calls := calls s ++ [CallGet (req_NamespacedName req);
                             CallDecode (ms_ProviderSpec ms)] |}).
Proof.
  intros Hget Hdel Hcodec Hdec.
  unfold Reconcile, callGet, getproviderConfig, bind, record, ret; simpl.
  rewrite Hget, Hdel, Hcodec; simpl. rewrite Hdec; simpl.
  rewrite <- app_assoc. reflexivity.
Qed.

(** X3: when the patch fails, [Reconcile] returns an error whose message
    is the one of the patch error behind a prefix.  The error is a new one:
    whatever the patch error was, the result is recognised neither as a
    conflict nor as not-found.  The store is as the patch left it. *)
Theorem Reconcile_patch_failure r req s ms codec pc err w :
  Get (r_Client r) (req_NamespacedName req) (store s) = inr ms ->
  Time_IsZero (DeletionTimestamp ms) = true ->
  NewCodec = inr codec ->
  DecodeProviderSpec codec (ms_ProviderSpec ms) = inr pc ->
  DoPatch (r_Client r) (annotated (mapaccess InstanceTypes (InstanceType pc)) ms)
    (MergeFrom ms) (store s) = (Some err, w) ->
  exists e,
    fst (Reconcile' r req s) = Ret (Result_zero, Some e)
    /\ Error e = "failed to patch machineSet: " +:+ Error err
    /\ apierrors.IsConflict e = false
    /\ apierrors.IsNotFound e = false
    /\ store (snd (Reconcile' r req s)) = w.
Proof.
  intros Hget Hdel Hcodec Hdec Hpatch.
  rewrite (patch_path r req s ms codec pc Hget Hdel Hcodec Hdec). simpl.
  rewrite Hpatch. simpl.
  eexists. repeat split.
Qed.



(** X6: [Reconcile] returns a nil error exactly when the object was not
    found, or is being deleted, or was decoded and patched without error. *)
Theorem Reconcile_nil_error_iff r req s :
  fst (Reconcile' r req s) = Ret (Result_zero, None)
  <->
  match Get (r_Client r) (req_NamespacedName req) (store s) with
  | inl err => apierrors.IsNotFound err = true
  | inr ms =>
      Time_IsZero (DeletionTimestamp ms) = false
      \/ exists codec pc,
           NewCodec = inr codec
           /\ DecodeProviderSpec codec (ms_ProviderSpec ms) = inr pc
           /\ fst (DoPatch (r_Client r)
                     (annotated (mapaccess InstanceTypes (InstanceType pc)) ms)
                     (MergeFrom ms) (store s)) = None
  end.
Proof.
  destruct (Get (r_Client r) (req_NamespacedName req) (store s)) as [err|ms] eqn:Hget.
  { unfold Reconcile, callGet, bind, record, ret; simpl. rewrite Hget.
    destruct (apierrors.IsNotFound err); simpl; split; congruence. }
  destruct (Time_IsZero (DeletionTimestamp ms)) eqn:Hdel.
  2:{ unfold Reconcile, callGet, bind, record, ret; simpl. rewrite Hget, Hdel. simpl.
      split; auto. }
  assert (Hcase : (exists err, NewCodec = inl err) \/ (exists codec, NewCodec = inr codec))
    by (destruct NewCodec; eauto).
  destruct Hcase as [[err Hcodec]|[codec Hcodec]].
  { unfold Reconcile, callGet, getproviderConfig, bind, record, ret; simpl.
    rewrite Hget, Hdel, ?Hcodec. simpl.
    split; [discriminate|]. intros [H|(c & pc & H & _)]; [discriminate|congruence]. }
  destruct (DecodeProviderSpec codec (ms_ProviderSpec ms)) as [err|pc] eqn:Hdec.
  { unfold Reconcile, callGet, getproviderConfig, bind, record, ret; simpl.
    rewrite Hget, Hdel, ?Hcodec; simpl. rewrite ?Hdec; simpl.
    split; [discriminate|]. intros [H|(c & pc & H & H' & _)]; [discriminate|].
    try rewrite Hcodec in H. injection H as Hc. subst c. congruence. }
  rewrite (patch_path r req s ms codec pc Hget Hdel Hcodec Hdec). simpl.
  destruct (DoPatch (r_Client r) _ (MergeFrom ms) (store s)) as [[perr|] w'] eqn:Hp; simpl.
  - split; [discriminate|]. intros [H|(c & pc' & H & H' & H'')]; [discriminate|].
    try rewrite Hcodec in H. injection H as Hc. subst c.
    rewrite Hdec in H'. injection H' as Hpc. subst pc'.
    rewrite Hp in H''. discriminate.
  - split; [|reflexivity]. intros _. right. exists codec, pc.
    rewrite Hp. auto.
Qed.


(** X7: on the way to the patch, the object handed to [Patch] differs from
    the fetched one in the three derived annotations at most: name,
    namespace, deletion timestamp and provider spec are the fetched ones,
    and so is every other annotation; the patch is computed against the
    fetched object as it was before the writes. *)
Theorem Reconcile_patch_frame r req s ms codec pc :
  Get (r_Client r) (req_NamespacedName req) (store s) = inr ms ->
  Time_IsZero (DeletionTimestamp ms) = true ->
  NewCodec = inr codec ->
  DecodeProviderSpec codec (ms_ProviderSpec ms) = inr pc ->
  exists obj,
    patchCalls (calls (snd (Reconcile' r req s)))
      = patchCalls (calls s) ++ [(obj, MergeFrom ms)]
    /\ ms_Name obj = ms_Name ms
    /\ ms_Namespace obj = ms_Namespace ms
    /\ DeletionTimestamp obj = DeletionTimestamp ms
    /\ ms_ProviderSpec obj = ms_ProviderSpec ms
    /\ forall k, k <> vCPUKey -> k <> memoryMbKey -> k <> GPUKey ->
         default ∅ (Annotations obj) !! k = default ∅ (Annotations ms) !! k.
Proof.
  intros Hget Hdel Hcodec Hdec.
  rewrite (patch_path r req s ms codec pc Hget Hdel Hcodec Hdec). simpl.
  eexists. split.
  { rewrite MachinesetFacts.patchCalls_app. simpl. reflexivity. }
  repeat split.
  intros k H1 H2 H3. simpl.
  rewrite !lookup_insert_ne by congruence. reflexivity.
Qed.

(** X8: for an instance type the table knows, the vCPU annotation handed
    to [Patch] is the decimal rendering of the vCPU count of its entry,
    whatever the fetched object carried under that key. *)
Theorem Reconcile_vCPU_annotation r req s ms codec pc it :
  Get (r_Client r) (req_NamespacedName req) (store s) = inr ms ->
  Time_IsZero (DeletionTimestamp ms) = true ->
  NewCodec = inr codec ->
  DecodeProviderSpec codec (ms_ProviderSpec ms) = inr pc ->
  InstanceTypes !! InstanceType pc = Some it ->
  exists obj m,
    patchCalls (calls (snd (Reconcile' r req s)))
      = patchCalls (calls s) ++ [(obj, MergeFrom ms)]
    /\ Annotations obj = Some m
    /\ m !! vCPUKey = Some (strconv.FormatInt (VCPU it)).
Proof.
  intros Hget Hdel Hcodec Hdec Hit.
  rewrite (patch_path r req s ms codec pc Hget Hdel Hcodec Hdec). simpl.
  eexists. eexists. split.
  { rewrite MachinesetFacts.patchCalls_app. simpl. reflexivity. }
  split; [apply MachinesetFacts.annotated_Annotations|].
  unfold mapaccess. rewrite Hit. simpl.
  rewrite lookup_insert_ne by discriminate.
  rewrite lookup_insert_ne by discriminate.
  apply lookup_insert_eq.
Qed.

(** X9: the annotation delta of the patch, computed from the fetched
    object to the one handed to [Patch], holds derived keys only, and sets
    them: it removes no annotation and touches no other key. *)
Theorem Reconcile_patch_delta r req s ms codec pc :
  Get (r_Client r) (req_NamespacedName req) (store s) = inr ms ->
  Time_IsZero (DeletionTimestamp ms) = true ->
  NewCodec = inr codec ->
  DecodeProviderSpec codec (ms_ProviderSpec ms) = inr pc ->
  exists obj,
    patchCalls (calls (snd (Reconcile' r req s)))
      = patchCalls (calls s) ++ [(obj, MergeFrom ms)]
    /\ forall k d,
         mergepatch.annotationsDelta (Annotations ms) (Annotations obj) !! k = Some d ->
         (k = vCPUKey \/ k = memoryMbKey \/ k = GPUKey)
         /\ d = Some (strconv.FormatInt (VCPU (mapaccess InstanceTypes (InstanceType pc)))).
Proof.
  intros Hget Hdel Hcodec Hdec.
  rewrite (patch_path r req s ms codec pc Hget Hdel Hcodec Hdec). simpl.
  eexists. split.
  { rewrite MachinesetFacts.patchCalls_app. simpl. reflexivity. }
  intros k d. unfold mergepatch.annotationsDelta. rewrite lookup_merge. simpl.
  set (v := strconv.FormatInt (VCPU (mapaccess InstanceTypes (InstanceType pc)))).
  set (m := default ∅ (Annotations ms)).
  destruct (decide (k = GPUKey)) as [->|Hg].
  { rewrite lookup_insert_eq. destruct (m !! GPUKey); simpl;
      try case_decide; intros Hd; inversion Hd; subst; auto. }
  rewrite lookup_insert_ne by congruence.
  destruct (decide (k = memoryMbKey)) as [->|Hm].
  { rewrite lookup_insert_eq. destruct (m !! memoryMbKey); simpl;
      try case_decide; intros Hd; inversion Hd; subst; auto. }
  rewrite lookup_insert_ne by congruence.
  destruct (decide (k = vCPUKey)) as [->|Hv].
  { rewrite lookup_insert_eq. destruct (m !! vCPUKey); simpl;
      try case_decide; intros Hd; inversion Hd; subst; auto. }
  rewrite lookup_insert_ne by congruence.
  destruct (m !! k); simpl; [case_decide; [discriminate|congruence]|discriminate].
Qed.

End Reconciler.

(** *** On concrete stores *)

Import examples examples_more.

Abbreviation thePc := (codec.TestingMachinePc "aws-creds" "c1").
Abbreviation theCodec := (codec.mkCodec codec.V1beta1).
Abbreviation theNewCodec := (codec.NewCodec codec.V1beta1).

Lemma Reconcile_codec_failure_witness :
  Get fake.client workersKey (store (storeOf workers)) = inr workers
  /\ Time_IsZero (DeletionTimestamp workers) = true
  /\ runNoCodec fake.reconciler (storeOf workers)
     = (Ret (Result_zero,
             Some (ErrorString
                     "failed to get providerConfig: failed to create codec: no scheme")),
        {| store := store (storeOf workers); calls := [CallGet workersKey] |}).
Proof.
  assert (H1 : Get fake.client workersKey (store (storeOf workers)) = inr workers)
    by (vm_compute; reflexivity).
  split; [exact H1|]. split; [reflexivity|].
  exact (Reconcile_codec_failure table codec.Codec (inl (ErrorString "no scheme"))
           codec.DecodeProviderSpec fake.reconciler workersReq (storeOf workers) workers
           (ErrorString "no scheme") H1 eq_refl eq_refl).
Defined.

Lemma Reconcile_decode_failure_witness :
  Get fake.client workersKey (store (storeOf garbage)) = inr garbage
  /\ Time_IsZero (DeletionTimestamp garbage) = true
  /\ codec.DecodeProviderSpec theCodec (ms_ProviderSpec garbage)
     = inl (ErrorString "malformed payload")
  /\ run fake.reconciler (storeOf garbage)
     = (Ret (Result_zero,
             Some (ErrorString
                     ("failed to get providerConfig: "
                      +:+ "failed to decode machineSet provider config: malformed payload"))),
        {| store := store (storeOf garbage);
           calls := [CallGet workersKey; CallDecode (ms_ProviderSpec garbage)] |}).
Proof.
  assert (H1 : Get fake.client workersKey (store (storeOf garbage)) = inr garbage)
    by (vm_compute; reflexivity).
  assert (H3 : codec.DecodeProviderSpec theCodec (ms_ProviderSpec garbage)
               = inl (ErrorString "malformed payload")) by (vm_compute; reflexivity).
  split; [exact H1|]. split; [reflexivity|]. split; [exact H3|].
  exact (Reconcile_decode_failure table codec.Codec theNewCodec
           codec.DecodeProviderSpec fake.reconciler workersReq (storeOf garbage) garbage
           theCodec (ErrorString "malformed payload") H1 eq_refl eq_refl H3).
Defined.

(** The patch is refused with a conflict; what [Reconcile] returns is not
    recognised as one. *)
Lemma Reconcile_patch_failure_witness :
  Get conflicting workersKey (store (storeOf workers)) = inr workers
  /\ Time_IsZero (DeletionTimestamp workers) = true
  /\ codec.DecodeProviderSpec theCodec (ms_ProviderSpec workers) = inr thePc
  /\ apierrors.IsConflict conflict = true
  /\ exists e,
       fst (run {| r_Client := conflicting |} (storeOf workers)) = Ret (Result_zero, Some e)
       /\ Error e = "failed to patch machineSet: the object has been modified"
       /\ apierrors.IsConflict e = false
       /\ apierrors.IsNotFound e = false
       /\ store (snd (run {| r_Client := conflicting |} (storeOf workers)))
          = store (storeOf workers).
Proof.
  assert (H1 : Get conflicting workersKey (store (storeOf workers)) = inr workers)
    by (vm_compute; reflexivity).
  assert (H3 : codec.DecodeProviderSpec theCodec (ms_ProviderSpec workers) = inr thePc)
    by (vm_compute; reflexivity).
  split; [exact H1|]. split; [reflexivity|]. split; [exact H3|]. split; [reflexivity|].
  exact (Reconcile_patch_failure table codec.Codec theNewCodec
           codec.DecodeProviderSpec {| r_Client := conflicting |} workersReq
           (storeOf workers) workers theCodec thePc conflict (store (storeOf workers))
           H1 eq_refl eq_refl H3 eq_refl).
Defined.

Lemma Reconcile_patch_frame_witness :
  Get fake.client workersKey (store (storeOf stale)) = inr stale
  /\ Time_IsZero (DeletionTimestamp stale) = true
  /\ codec.DecodeProviderSpec theCodec (ms_ProviderSpec stale) = inr thePc
  /\ exists obj,
       patchCalls (calls (snd (run fake.reconciler (storeOf stale))))
         = [(obj, MergeFrom stale)]
       /\ default ∅ (Annotations obj) !! "owner" = Some "team-a".
Proof.
  assert (H1 : Get fake.client workersKey (store (storeOf stale)) = inr stale)
    by (vm_compute; reflexivity).
  assert (H3 : codec.DecodeProviderSpec theCodec (ms_ProviderSpec stale) = inr thePc)
    by (vm_compute; reflexivity).
  split; [exact H1|]. split; [reflexivity|]. split; [exact H3|].
  destruct (Reconcile_patch_frame table codec.Codec theNewCodec
              codec.DecodeProviderSpec fake.reconciler workersReq (storeOf stale) stale
              theCodec thePc H1 eq_refl eq_refl H3)
    as (obj & Hcalls & _ & _ & _ & _ & Hframe).
  exists obj. split; [exact Hcalls|].
  rewrite (Hframe "owner") by discriminate. vm_compute. reflexivity.
Defined.

(** The stale "96" under the vCPU key is replaced by "4". *)
Lemma Reconcile_vCPU_annotation_witness :
  Get fake.client workersKey (store (storeOf stale)) = inr stale
  /\ Time_IsZero (DeletionTimestamp stale) = true
  /\ codec.DecodeProviderSpec theCodec (ms_ProviderSpec stale) = inr thePc
  /\ table !! InstanceType thePc = Some {| VCPU := 4; MemoryMb := 16384; GPU := 0 |}
  /\ default ∅ (Annotations stale) !! vCPUKey = Some "96"
  /\ exists obj m,
       patchCalls (calls (snd (run fake.reconciler (storeOf stale))))
         = [(obj, MergeFrom stale)]
       /\ Annotations obj = Some m
       /\ m !! vCPUKey = Some "4".
Proof.
  assert (H1 : Get fake.client workersKey (store (storeOf stale)) = inr stale)
    by (vm_compute; reflexivity).
  assert (H3 : codec.DecodeProviderSpec theCodec (ms_ProviderSpec stale) = inr thePc)
    by (vm_compute; reflexivity).
  assert (H4 : table !! InstanceType thePc
               = Some {| VCPU := 4; MemoryMb := 16384; GPU := 0 |})
    by (vm_compute; reflexivity).
  split; [exact H1|]. split; [reflexivity|]. split; [exact H3|]. split; [exact H4|].
  split; [vm_compute; reflexivity|].
  exact (Reconcile_vCPU_annotation table codec.Codec theNewCodec
           codec.DecodeProviderSpec fake.reconciler workersReq (storeOf stale) stale
           theCodec thePc _ H1 eq_refl eq_refl H3 H4).
Defined.

Lemma Reconcile_patch_delta_witness :
  Get fake.client workersKey (store (storeOf stale)) = inr stale
  /\ Time_IsZero (DeletionTimestamp stale) = true
  /\ codec.DecodeProviderSpec theCodec (ms_ProviderSpec stale) = inr thePc
  /\ exists obj,
       patchCalls (calls (snd (run fake.reconciler (storeOf stale))))
         = [(obj, MergeFrom stale)]
       /\ mergepatch.annotationsDelta (Annotations stale) (Annotations obj) !! "owner" = None.
Proof.
  assert (H1 : Get fake.client workersKey (store (storeOf stale)) = inr stale)
    by (vm_compute; reflexivity).
  assert (H3 : codec.DecodeProviderSpec theCodec (ms_ProviderSpec stale) = inr thePc)
    by (vm_compute; reflexivity).
  split; [exact H1|]. split; [reflexivity|]. split; [exact H3|].
  destruct (Reconcile_patch_delta table codec.Codec theNewCodec
              codec.DecodeProviderSpec fake.reconciler workersReq (storeOf stale) stale
              theCodec thePc H1 eq_refl eq_refl H3)
    as (obj & Hcalls & Hdelta).
  exists obj. split; [exact Hcalls|].
  destruct (mergepatch.annotationsDelta (Annotations stale) (Annotations obj) !! "owner")
    as [d|] eqn:Hd; [|reflexivity].
  destruct (Hdelta "owner" d Hd) as [[H|[H|H]] _]; discriminate H.
Defined.

End MachinesetMore.

(** ** Decimal rendering *)

Module StrconvFacts.

Import strconv.

Lemma digit_pretty (d : Z) :
  0 <= d < 10 -> digit d = pretty_N_char (Z.to_N d).
Proof.
  intros Hd.
  assert (Hcases : d = 0 \/ d = 1 \/ d = 2 \/ d = 3 \/ d = 4 \/ d = 5 \/ d = 6
                   \/ d = 7 \/ d = 8 \/ d = 9) by lia.
  repeat (destruct Hcases as [->|Hcases]; [reflexivity|]). subst. reflexivity.
Qed.

(** With enough fuel for the digits of [u], the loop is the digit loop of
    [pretty]. *)
Lemma formatBits_pretty (fuel : nat) :
  forall (u : Z) (acc : string),
    0 < u < 10 ^ Z.of_nat fuel ->
    formatBits fuel u acc = pretty_N_go (Z.to_N u) acc.
Proof.
  induction fuel as [|fuel IH]; intros u acc Hu.
  - simpl in Hu. lia.
  - cbn [formatBits].
    rewrite pretty_N_go_step by lia.
    assert (Hmod : 0 <= u mod 10 < 10) by (apply Z.mod_pos_bound; lia).
    assert (Hdiv : 0 <= u / 10) by (apply Z.div_pos; lia).
    replace (Z.to_N u `mod` 10)%N with (Z.to_N (u mod 10))
      by (rewrite Z2N.inj_mod by lia; reflexivity).
    replace (Z.to_N u `div` 10)%N with (Z.to_N (u / 10))
      by (rewrite Z2N.inj_div by lia; reflexivity).
    rewrite <- digit_pretty by exact Hmod.
    destruct (Z.eqb_spec (u / 10) 0) as [H0|Hn0].
    + rewrite H0. simpl. rewrite pretty_N_go_0. reflexivity.
    + apply IH. split; [lia|].
      apply Z.div_lt_upper_bound; [lia|].
      rewrite Nat2Z.inj_succ, Z.pow_succ_r in Hu by lia. lia.
Qed.

(** [FormatInt] writes an [int64] the way [pretty] writes an integer. *)
Lemma FormatInt_pretty (i : Z) :
  - 2 ^ 63 <= i < 2 ^ 63 -> FormatInt i = pretty i.
Proof.
  intros Hi. unfold FormatInt.
  destruct (Z.ltb_spec i 0) as [Hneg|Hpos].
  - rewrite formatBits_pretty by (simpl; lia).
    destruct i as [|p|p]; try lia. simpl.
    unfold pretty, pretty_Z, pretty, pretty_positive, pretty, pretty_N.
    rewrite decide_False by discriminate. reflexivity.
  - destruct i as [|p|p]; try lia; [reflexivity|].
    rewrite formatBits_pretty by (simpl; lia).
    unfold pretty, pretty_Z, pretty, pretty_positive, pretty, pretty_N.
    rewrite decide_False by discriminate. reflexivity.
Qed.

(** X10: on [int64] values [FormatInt] is one to one: two numbers with
    the same rendering are the same number, so an annotation value names one
    count only. *)
Theorem FormatInt_inj (i j : Z) :
  - 2 ^ 63 <= i < 2 ^ 63 ->
  - 2 ^ 63 <= j < 2 ^ 63 ->
  FormatInt i = FormatInt j ->
  i = j.
Proof.
  intros Hi Hj Heq.
  rewrite (FormatInt_pretty i Hi), (FormatInt_pretty j Hj) in Heq.
  exact (pretty_Z_inj i j Heq).
Qed.

Lemma FormatInt_inj_witness :
  - 2 ^ 63 <= 16384 < 2 ^ 63
  /\ - 2 ^ 63 <= 4 * 4096 < 2 ^ 63
  /\ FormatInt 16384 = FormatInt (4 * 4096)
  /\ 16384 = 4 * 4096.
Proof.
  split; [lia|]. split; [lia|]. split; [reflexivity|].
  apply (FormatInt_inj 16384 (4 * 4096)); [lia|lia|reflexivity].
Defined.

End StrconvFacts.

(** ** More on the guest-cluster scope *)

Module ScopeMore.

Import unstructured scope scope_accessors spec spec_more.

(** What [NestedString] finds at [spec.region]: the string when there is
    one, and otherwise a not-found or an error. *)
Lemma NestedString_region (obj : gmap string JSONValue) :
  match regionOf obj with
  | Some r => NestedString obj ["spec"; "region"] = (r, true, None)
  | None =>
      exists found err,
        NestedString obj ["spec"; "region"] = ("", found, err)
        /\ bool_decide (err <> None) || negb found = true
  end.
Proof.
  unfold regionOf, NestedString. cbn [NestedFieldNoCopy].
  destruct (obj !! "spec") as [v|]; [|simpl; eauto].
  destruct v as [|b|z|str|l|m]; simpl; eauto.
  destruct (m !! "region") as [v|]; [|simpl; eauto].
  destruct v; simpl; eauto.
Qed.

Section Scope.

Context {W ClientT Logger ServiceEndpoint Session Helper : Type}.
Variable klogr_New : Logger.
Variable sessionForRegion : string -> list ServiceEndpoint -> error + Session.
Variable patch_NewHelper : Unstructured -> option ClientT -> error + Helper.

Abbreviation NewGuestClusterScope' :=
  (NewGuestClusterScope (W:=W) klogr_New sessionForRegion patch_NewHelper).
Abbreviation Params :=
  (GuestClusterScopeParams (ClientT:=ClientT) (Logger:=Logger)
     (ServiceEndpoint:=ServiceEndpoint) (Session:=Session)).
Abbreviation Scope :=
  (GuestClusterScope (ClientT:=ClientT) (Logger:=Logger) (Session:=Session) (Helper:=Helper)).

Abbreviation built := (spec_more.built klogr_New).

(** The run of [NewGuestClusterScope] once both references are there, by
    what is found at [spec.region] and what the two constructors answer. *)
Lemma NewGuestClusterScope_run (params : Params) (st : State W (Call ServiceEndpoint))
    cluster guest :
  p_Cluster params = Some cluster ->
  p_GuestCluster params = Some guest ->
  match regionOf (Object guest) with
  | None => exists err, NewGuestClusterScope' params st = (Ret (None, Some err), st)
  | Some region =>
      match sessionForRegion region (p_Endpoints params) with
      | inl err =>
          NewGuestClusterScope' params st
          = (Ret (None, Some (ErrorString ("failed to create aws session: " +:+ Error err))),
             {| store := store st;
                calls := calls st ++ [CallSessionForRegion region (p_Endpoints params)] |})
      | inr session =>
          match patch_NewHelper guest (p_Client params) with
          | inl err =>
              NewGuestClusterScope' params st
              = (Ret (None, Some (ErrorString ("failed to init patch helper: " +:+ Error err))),
                 {| store := store st;
                    calls := calls st ++ [CallSessionForRegion region (p_Endpoints params);
                                          CallNewHelper guest] |})
          | inr helper =>
              NewGuestClusterScope' params st
              = (Ret (Some (built params cluster guest session helper), None),
                 {| store := store st;
                    calls := calls st ++ [CallSessionForRegion region (p_Endpoints params);
                                          CallNewHelper guest] |})
          end
      end
  end.
Proof.
  intros Hc Hg.
  pose proof (NestedString_region (Object guest)) as Hns.
  unfold NewGuestClusterScope, callSessionForRegion, callNewHelper, bind, record, ret.
  rewrite Hc, Hg.
  destruct (regionOf (Object guest)) as [region|].
  - rewrite Hns. simpl.
    destruct (sessionForRegion region (p_Endpoints params)) as [err|session]; simpl;
      [reflexivity|].
    destruct (patch_NewHelper guest (p_Client params)) as [err|helper]; simpl;
      rewrite <- app_assoc; simpl; [reflexivity|].
    unfold spec_more.built. destruct (p_Logger params); reflexivity.
  - destruct Hns as (found & err & -> & Hbad). rewrite Hbad. eauto.
Qed.


(** X11: with both references set but no string at [spec.region] of the
    guest cluster, [NewGuestClusterScope] returns a nil scope and an error
    and makes no call: no session is constructed and no snapshot taken. *)
Theorem NewGuestClusterScope_no_region (params : Params)
    (st : State W (Call ServiceEndpoint)) cluster guest :
  p_Cluster params = Some cluster ->
  p_GuestCluster params = Some guest ->
  regionOf (Object guest) = None ->
  exists err, NewGuestClusterScope' params st = (Ret (None, Some err), st).
Proof.
  intros Hc Hg Hr.
  pose proof (NewGuestClusterScope_run params st cluster guest Hc Hg) as Hrun.
  rewrite Hr in Hrun. exact Hrun.
Qed.

(** X12: when the session factory fails, [NewGuestClusterScope] returns a
    nil scope and the factory's error behind a prefix; the factory was
    called once, with the region of the object and the endpoints given, and
    the patch helper was not constructed. *)
Theorem NewGuestClusterScope_session_failure (params : Params)
    (st : State W (Call ServiceEndpoint)) cluster guest region err :
  p_Cluster params = Some cluster ->
  p_GuestCluster params = Some guest ->
  regionOf (Object guest) = Some region ->
  sessionForRegion region (p_Endpoints params) = inl err ->
  NewGuestClusterScope' params st
  = (Ret (None, Some (ErrorString ("failed to create aws session: " +:+ Error err))),
     {| store := store st;
        calls := calls st ++ [CallSessionForRegion region (p_Endpoints params)] |}).
Proof.
  intros Hc Hg Hr Hs.
  pose proof (NewGuestClusterScope_run params st cluster guest Hc Hg) as Hrun.
  rewrite Hr, Hs in Hrun. exact Hrun.
Qed.

(** X13: when the patch helper cannot be constructed,
    [NewGuestClusterScope] returns a nil scope and the helper's error behind
    a prefix, after the session was constructed. *)
Theorem NewGuestClusterScope_helper_failure (params : Params)
    (st : State W (Call ServiceEndpoint)) cluster guest region session err :
  p_Cluster params = Some cluster ->
  p_GuestCluster params = Some guest ->
  regionOf (Object guest) = Some region ->
  sessionForRegion region (p_Endpoints params) = inr session ->
  patch_NewHelper guest (p_Client params) = inl err ->
  NewGuestClusterScope' params st
  = (Ret (None, Some (ErrorString ("failed to init patch helper: " +:+ Error err))),
     {| store := store st;
        calls := calls st ++ [CallSessionForRegion region (p_Endpoints params);
                              CallNewHelper guest] |}).
Proof.
  intros Hc Hg Hr Hs Hh.
  pose proof (NewGuestClusterScope_run params st cluster guest Hc Hg) as Hrun.
  rewrite Hr, Hs, Hh in Hrun. exact Hrun.
Qed.

(** X14: when every step succeeds, [NewGuestClusterScope] returns a nil
    error and a scope that holds the cluster and the guest cluster given,
    the session made for the region of the object, the helper made from the
    object, the controller name, and a logger: the one given, or a new one
    when none was.  The session is constructed before the helper. *)
Theorem NewGuestClusterScope_success (params : Params)
    (st : State W (Call ServiceEndpoint)) cluster guest region session helper :
  p_Cluster params = Some cluster ->
  p_GuestCluster params = Some guest ->
  regionOf (Object guest) = Some region ->
  sessionForRegion region (p_Endpoints params) = inr session ->
  patch_NewHelper guest (p_Client params) = inr helper ->
  NewGuestClusterScope' params st
  = (Ret (Some (built params cluster guest session helper), None),
     {| store := store st;
        calls := calls st ++ [CallSessionForRegion region (p_Endpoints params);
                              CallNewHelper guest] |}).
Proof.
  intros Hc Hg Hr Hs Hh.
  pose proof (NewGuestClusterScope_run params st cluster guest Hc Hg) as Hrun.
  rewrite Hr, Hs, Hh in Hrun. exact Hrun.
Qed.


(** X16: on a scope [NewGuestClusterScope] returned, [Region] gives the
    region the session of the scope was constructed for, and logs nothing. *)
Theorem Region_of_new_scope (params : Params) (st st' : State W (Call ServiceEndpoint))
    (s : Scope) err :
  NewGuestClusterScope' params st = (Ret (Some s, err), st') ->
  exists region session,
    Region s = Ret (region, [])
    /\ sessionCalls (calls st') = sessionCalls (calls st) ++ [(region, p_Endpoints params)]
    /\ sessionForRegion region (p_Endpoints params) = inr session
    /\ s_session s = Some session.
Proof.
  intros Hnew.
  destruct (p_Cluster params) as [cluster|] eqn:Hc.
  2:{ unfold NewGuestClusterScope, ret in Hnew. rewrite Hc in Hnew. discriminate. }
  destruct (p_GuestCluster params) as [guest|] eqn:Hg.
  2:{ unfold NewGuestClusterScope, ret in Hnew. rewrite Hc, Hg in Hnew. discriminate. }
  pose proof (NewGuestClusterScope_run params st cluster guest Hc Hg) as Hrun.
  pose proof (NestedString_region (Object guest)) as Hns.
  destruct (regionOf (Object guest)) as [region|].
  2:{ destruct Hrun as [e Hrun]. rewrite Hrun in Hnew. discriminate. }
  destruct (sessionForRegion region (p_Endpoints params)) as [e|session] eqn:Hs.
  { rewrite Hrun in Hnew. discriminate. }
  destruct (patch_NewHelper guest (p_Client params)) as [e|helper].
  { rewrite Hrun in Hnew. discriminate. }
  rewrite Hrun in Hnew. injection Hnew as <- <- <-.
  exists region, session. simpl.
  split.
  { unfold Region, spec_more.built. simpl. rewrite Hns. reflexivity. }
  split; [|split; [exact Hs|reflexivity]].
  unfold sessionCalls. rewrite omap_app. reflexivity.
Qed.

(** X17: on a scope [NewGuestClusterScope] returned, the accessors that
    read the cluster return without a panic, with the name, namespace and
    UID of the cluster that was given. *)
Theorem accessors_of_new_scope (params : Params) (st st' : State W (Call ServiceEndpoint))
    (s : Scope) err :
  NewGuestClusterScope' params st = (Ret (Some s, err), st') ->
  exists cluster,
    p_Cluster params = Some cluster
    /\ Name s = Ret (cl_Name cluster)
    /\ Namespace s = Ret (cl_Namespace cluster)
    /\ KubernetesClusterName s = Ret (cl_Name cluster)
    /\ ControlPlaneConfigMapName s = Ret (cl_UID cluster +:+ "-controlplane")
    /\ ControllerName s = p_ControllerName params
    /\ exists port, APIServerPort s = Ret port.
Proof.
  intros Hnew.
  destruct (p_Cluster params) as [cluster|] eqn:Hc.
  2:{ unfold NewGuestClusterScope, ret in Hnew. rewrite Hc in Hnew. discriminate. }
  destruct (p_GuestCluster params) as [guest|] eqn:Hg.
  2:{ unfold NewGuestClusterScope, ret in Hnew. rewrite Hc, Hg in Hnew. discriminate. }
  pose proof (NewGuestClusterScope_run params st cluster guest Hc Hg) as Hrun.
  destruct (regionOf (Object guest)) as [region|].
  2:{ destruct Hrun as [e Hrun]. rewrite Hrun in Hnew. discriminate. }
  destruct (sessionForRegion region (p_Endpoints params)) as [e|session].
  { rewrite Hrun in Hnew. discriminate. }
  destruct (patch_NewHelper guest (p_Client params)) as [e|helper].
  { rewrite Hrun in Hnew. discriminate. }
  rewrite Hrun in Hnew. injection Hnew as <- <- <-.
  exists cluster. repeat split.
  unfold APIServerPort. simpl.
  destruct (cl_ClusterNetwork cluster) as [n|]; [destruct (cn_APIServerPort n)|]; eauto.
Qed.

End Scope.

Section Accessors.

Context {ClientT Logger Session Helper : Type}.

Abbreviation AScope :=
  (GuestClusterScope (ClientT:=ClientT) (Logger:=Logger) (Session:=Session) (Helper:=Helper)).

(** X18: on a scope that holds an object and a logger, [Region] returns
    without a panic: the string at [spec.region] when there is one, with
    nothing logged, and otherwise the empty string, with one line logged.
    It has no error result. *)
Theorem Region_returns (s : AScope) guestCluster u l :
  s_GuestCluster s = Some guestCluster ->
  Unstructured_of guestCluster = Some u ->
  s_Logger s = Some l ->
  match regionOf (Object u) with
  | Some region => Region s = Ret (region, [])
  | None =>
      exists err,
        Region s = Ret ("", [ {| log_err := err; log_msg := "error getting region" |} ])
  end.
Proof.
  intros Hg Hu Hl.
  pose proof (NestedString_region (Object u)) as Hns.
  unfold Region. rewrite Hg, Hu.
  destruct (regionOf (Object u)) as [region|].
  - rewrite Hns. reflexivity.
  - destruct Hns as (found & err & -> & Hbad). rewrite Hbad, Hl. eauto.
Qed.

(** X19: [ControlPlaneLoadBalancerScheme] is the Internet-facing scheme on
    every scope, the zero one included: [ControlPlaneLoadBalancer] is nil,
    so no scheme of a load-balancer spec is ever read. *)
Theorem ControlPlaneLoadBalancerScheme_internet_facing
    {AWSLoadBalancerSpec ClassicELBScheme : Type}
    (lb_Scheme : AWSLoadBalancerSpec -> option ClassicELBScheme)
    (ClassicELBSchemeInternetFacing : ClassicELBScheme)
    (s : AScope) :
  ControlPlaneLoadBalancer (AWSLoadBalancerSpec:=AWSLoadBalancerSpec) s = None
  /\ ControlPlaneLoadBalancerScheme lb_Scheme ClassicELBSchemeInternetFacing s
     = ClassicELBSchemeInternetFacing.
Proof.
  split; [reflexivity|].
  unfold ControlPlaneLoadBalancerScheme, ControlPlaneLoadBalancer. reflexivity.
Qed.

End Accessors.

(** *** On concrete scopes *)

Import scope_examples scope_examples_more.

Abbreviation theParams := (params (Some (owner None)) (Some (object "1" false))).
Abbreviation theScope :=
  (spec_more.built tt theParams (owner None) (object "1" false) "us-east-1" (object "1" false)).
Abbreviation theCalls :=
  [CallSessionForRegion (ServiceEndpoint:=unit) "us-east-1" [];
   CallNewHelper (object "1" false)].

Lemma NewGuestClusterScope_no_region_witness :
  regionOf (Object noRegion) = None
  /\ regionOf (Object numericRegion) = None
  /\ (exists err, NewScope (Some (owner None)) (Some noRegion) = (Ret (None, Some err), fresh))
  /\ (exists err, NewScope (Some (owner None)) (Some numericRegion)
                  = (Ret (None, Some err), fresh)).
Proof.
  split; [reflexivity|]. split; [reflexivity|]. split.
  - exact (NewGuestClusterScope_no_region tt sessionForRegion patch_NewHelper
             (params (Some (owner None)) (Some noRegion)) fresh (owner None) noRegion
             eq_refl eq_refl eq_refl).
  - exact (NewGuestClusterScope_no_region tt sessionForRegion patch_NewHelper
             (params (Some (owner None)) (Some numericRegion)) fresh (owner None)
             numericRegion eq_refl eq_refl eq_refl).
Defined.

(** An empty region is a region: it is handed to the session factory, which
    is the one to refuse it. *)
Lemma NewGuestClusterScope_session_failure_witness :
  regionOf (Object emptyRegion) = Some ""
  /\ sessionForRegion "" [] = inl (ErrorString "region is required")
  /\ NewScope (Some (owner None)) (Some emptyRegion)
     = (Ret (None, Some (ErrorString "failed to create aws session: region is required")),
        {| store := store fresh; calls := [CallSessionForRegion "" []] |}).
Proof.
  split; [reflexivity|]. split; [reflexivity|].
  exact (NewGuestClusterScope_session_failure tt sessionForRegion patch_NewHelper
           (params (Some (owner None)) (Some emptyRegion)) fresh (owner None) emptyRegion
           "" (ErrorString "region is required") eq_refl eq_refl eq_refl eq_refl).
Defined.

Lemma NewGuestClusterScope_helper_failure_witness :
  regionOf (Object (object "1" false)) = Some "us-east-1"
  /\ NewScopeWith failingNewHelper (Some (owner None)) (Some (object "1" false))
     = (Ret (None,
             Some (ErrorString "failed to init patch helper: expected client to be non-nil")),
        {| store := store fresh; calls := theCalls |}).
Proof.
  split; [vm_compute; reflexivity|].
  refine (NewGuestClusterScope_helper_failure tt sessionForRegion failingNewHelper
            theParams fresh (owner None) (object "1" false) "us-east-1" "us-east-1"
            (ErrorString "expected client to be non-nil") eq_refl eq_refl _ eq_refl eq_refl).
  vm_compute; reflexivity.
Defined.

Lemma NewGuestClusterScope_success_witness :
  regionOf (Object (object "1" false)) = Some "us-east-1"
  /\ NewScope (Some (owner None)) (Some (object "1" false))
     = (Ret (Some theScope, None), {| store := store fresh; calls := theCalls |}).
Proof.
  split; [vm_compute; reflexivity|].
  refine (NewGuestClusterScope_success tt sessionForRegion patch_NewHelper
            theParams fresh (owner None) (object "1" false) "us-east-1" "us-east-1"
            (object "1" false) eq_refl eq_refl _ eq_refl eq_refl).
  vm_compute; reflexivity.
Defined.

Lemma Region_of_new_scope_witness :
  NewScope (Some (owner None)) (Some (object "1" false))
  = (Ret (Some theScope, None), {| store := store fresh; calls := theCalls |})
  /\ exists region session,
       Region theScope = Ret (region, [])
       /\ sessionCalls theCalls = sessionCalls (calls fresh) ++ [(region, [])]
       /\ sessionForRegion region [] = inr session
       /\ s_session theScope = Some session.
Proof.
  assert (H : NewScope (Some (owner None)) (Some (object "1" false))
              = (Ret (Some theScope, None), {| store := store fresh; calls := theCalls |}))
    by (vm_compute; reflexivity).
  split; [exact H|].
  exact (Region_of_new_scope tt sessionForRegion patch_NewHelper theParams fresh
           {| store := store fresh; calls := theCalls |} theScope None H).
Defined.

Lemma accessors_of_new_scope_witness :
  NewScope (Some (owner None)) (Some (object "1" false))
  = (Ret (Some theScope, None), {| store := store fresh; calls := theCalls |})
  /\ Name theScope = Ret "guest"
  /\ ControlPlaneConfigMapName theScope = Ret "uid-1-controlplane".
Proof.
  assert (H : NewScope (Some (owner None)) (Some (object "1" false))
              = (Ret (Some theScope, None), {| store := store fresh; calls := theCalls |}))
    by (vm_compute; reflexivity).
  split; [exact H|].
  destruct (accessors_of_new_scope tt sessionForRegion patch_NewHelper theParams fresh
              {| store := store fresh; calls := theCalls |} theScope None H)
    as (cluster & Hc & Hname & _ & _ & Hcm & _).
  injection Hc as <-. split; [exact Hname|exact Hcm].
Defined.

(** A missing region is logged with a nil error, a region of the wrong
    type with the error of the accessor. *)
Lemma Region_returns_witness :
  s_GuestCluster (holding noRegion) = Some {| Unstructured_of := Some noRegion |}
  /\ s_Logger (holding noRegion) = Some tt
  /\ regionOf (Object noRegion) = None
  /\ exists err,
       Region (holding noRegion)
       = Ret ("", [ {| log_err := err; log_msg := "error getting region" |} ]).
Proof.
  split; [reflexivity|]. split; [reflexivity|]. split; [reflexivity|].
  exact (Region_returns (holding noRegion) {| Unstructured_of := Some noRegion |} noRegion tt
           eq_refl eq_refl eq_refl).
Defined.

End ScopeMore.

(** ** The testing helpers *)

Module UtilsFacts.

Import providerconfigv1 utils.

(** X20: the secret built from the environment carries exactly the two
    credential keys, each with the bytes of its environment variable; a
    variable that is not set gives a key that is present with no bytes, not
    a missing key. *)
Theorem GenerateAwsCredentialsSecretFromEnv_data
    (idKey accessKey : string) (env : gmap string string) (secretName namespace : string) :
  idKey <> accessKey ->
  let secret := GenerateAwsCredentialsSecretFromEnv idKey accessKey env secretName namespace in
  secret_Name secret = secretName
  /\ secret_Namespace secret = namespace
  /\ Data secret !! idKey = Some (list_byte_of_string (Getenv env "AWS_ACCESS_KEY_ID"))
  /\ Data secret !! accessKey
     = Some (list_byte_of_string (Getenv env "AWS_SECRET_ACCESS_KEY"))
  /\ dom (Data secret) = {[ idKey; accessKey ]}
  /\ (env !! "AWS_ACCESS_KEY_ID" = None -> Data secret !! idKey = Some [])
  /\ (env !! "AWS_SECRET_ACCESS_KEY" = None -> Data secret !! accessKey = Some []).
Proof.
  intros Hne secret. subst secret.
  unfold GenerateAwsCredentialsSecretFromEnv, Getenv. simpl.
  split; [reflexivity|]. split; [reflexivity|].
  split; [rewrite lookup_insert_ne by congruence; apply lookup_insert_eq|].
  split; [apply lookup_insert_eq|].
  split; [rewrite !dom_insert_L, dom_empty_L, union_empty_r_L; apply (comm_L (∪))|].
  split.
  - intros ->. rewrite lookup_insert_ne by congruence. rewrite lookup_insert_eq. reflexivity.
  - intros ->. rewrite lookup_insert_eq. reflexivity.
Qed.

Lemma GenerateAwsCredentialsSecretFromEnv_data_witness :
  "awsAccessKeyId" <> "awsSecretAccessKey"
  /\ Data (GenerateAwsCredentialsSecretFromEnv "awsAccessKeyId" "awsSecretAccessKey"
             {[ "AWS_ACCESS_KEY_ID" := "AKIA" ]} "aws-creds" "default")
       !! "awsSecretAccessKey" = Some [].
Proof.
  split; [discriminate|].
  apply (GenerateAwsCredentialsSecretFromEnv_data "awsAccessKeyId" "awsSecretAccessKey"
           {[ "AWS_ACCESS_KEY_ID" := "AKIA" ]} "aws-creds" "default").
  - discriminate.
  - vm_compute. reflexivity.
Defined.

(** X21: [MasterMachineProviderConfig] and
    [WorkerMachineSetProviderConfig] are the same function: on the same
    arguments they hand the same configuration to the encoder and return the
    same result. *)
Theorem Master_eq_Worker (Encoder_Encode : AWSMachineProviderConfig -> error + list byte)
    (awsCredentialsSecretName userDataSecretName clusterID : string) :
  MasterMachineProviderConfig Encoder_Encode awsCredentialsSecretName userDataSecretName
    clusterID
  = WorkerMachineSetProviderConfig Encoder_Encode awsCredentialsSecretName userDataSecretName
      clusterID.
Proof. unfold MasterMachineProviderConfig, WorkerMachineSetProviderConfig. reflexivity. Qed.

(** X22: each of the three functions returns either the encoded bytes with
    a nil error, or the zero [ProviderConfig] with an error whose message is
    the encoder's behind a prefix; the bytes are the ones the encoder gave for
    a configuration whose instance type is "m4.xlarge". *)
Theorem ProviderConfig_value_xor_error
    (Encoder_Encode : AWSMachineProviderConfig -> error + list byte)
    (a u c : string) (result : ProviderConfig * option error) :
  result = TestingMachineProviderConfig Encoder_Encode a c
  \/ result = MasterMachineProviderConfig Encoder_Encode a u c
  \/ result = WorkerMachineSetProviderConfig Encoder_Encode a u c ->
  exists machinePc,
    InstanceType machinePc = "m4.xlarge"
    /\ match Encoder_Encode machinePc with
       | inr buf => result = ({| pc_Value := Some buf |}, None)
       | inl err =>
           result = (ProviderConfig_zero,
                     Some (ErrorString ("AWSMachineProviderConfig encoding failed: "
                                        +:+ Error err)))
       end.
Proof.
  unfold TestingMachineProviderConfig, MasterMachineProviderConfig,
    WorkerMachineSetProviderConfig, encodeProviderConfig.
  intros [-> | [-> | ->]]; cbv zeta;
    match goal with
    | |- context [Encoder_Encode ?pc] =>
        exists pc; split; [reflexivity|]; destruct (Encoder_Encode pc); reflexivity
    end.
Qed.

Lemma ProviderConfig_value_xor_error_witness :
  let enc := fun _ : AWSMachineProviderConfig => inl (ErrorString "no encoder") : error + list byte in
  TestingMachineProviderConfig enc "aws-creds" "c1"
  = (ProviderConfig_zero,
     Some (ErrorString "AWSMachineProviderConfig encoding failed: no encoder")).
Proof.
  intros enc.
  destruct (ProviderConfig_value_xor_error enc "aws-creds" "" "c1"
              (TestingMachineProviderConfig enc "aws-creds" "c1") (or_introl eq_refl))
    as (machinePc & _ & H).
  exact H.
Defined.

End UtilsFacts.
